(** * FitnessStudioAPI: the booking service of [app.py], embedded and verified

    The Flask handlers of [src/FitnessStudioAPI/app.py] are embedded as
    functions over an explicit store (the two tables as SQLite keeps them),
    an explicit SQLAlchemy session (unit of work with commit and rollback)
    and an explicit environment (the clock, [uuid.uuid4()], the tables of
    the libraries, and the faults of the store).  The expectations of
    [tests/test_api.py] are quoted where the handlers depart from them. *)

From Stdlib Require Import ZArith List String Ascii Bool Lia QArith_base Sorted.
Import ListNotations.

Local Open Scope string_scope.
Local Open Scope list_scope.
Local Open Scope Z_scope.
Local Set Warnings "-register-all".

(** ** Python values *)

Module Py.

(** The exceptions that the handlers can meet. *)
Inductive exn : Type :=
| ValueError
| TypeError
| OverflowError
| AttributeError
| IntegrityError      (* a key is taken, or a NOT NULL column gets NULL *)
| StatementError      (* a value cannot be bound to its column *)
| OperationalError.   (* the store itself fails *)

Definition result (A : Type) : Type := (A + exn)%type.

(** A [str] is a Rocq string whose characters are its code points; the code
    points above U+00FF are left out. *)

(** A parsed JSON document, as [request.get_json()] returns it and as
    [jsonify] receives it.  A finite float is kept as the rational that is
    its value; [json.loads] also reads [Infinity], [-Infinity], [NaN] and
    the numbers beyond the range of a float, such as [1e400].  An object
    is the [dict] that the parser made of it: its keys in their order, each
    of them once. *)
Inductive json : Type :=
| JNull
| JBool (b : bool)
| JInt (n : Z)
| JFloat (q : Q)
| JInf (negative : bool)
| JNaN
| JStr (s : string)
| JArr (l : list json)
| JObj (d : list (string * json)).

(** Truth value of an object, as [not x] and [all([...])] test it. *)
Definition truthy (v : json) : bool :=
  match v with
  | JNull => false
  | JBool b => b
  | JInt n => negb (n =? 0)
  | JFloat q => negb (Qnum q =? 0)
  | JInf _ => true
  | JNaN => true
  | JStr s => negb (s =? "")%string
  | JArr l => match l with [] => false | _ => true end
  | JObj d => match d with [] => false | _ => true end
  end.

Definition all (vs : list json) : bool := forallb truthy vs.

(** [d.get(k)]: the value under [k], [None] when the key is missing. *)
Fixpoint dict_get (d : list (string * json)) (k : string) : json :=
  match d with
  | [] => JNull
  | (k', v) :: d' => if (k' =? k)%string then v else dict_get d' k
  end.

Fixpoint has_key (d : list (string * json)) (k : string) : bool :=
  match d with
  | [] => false
  | (k', _) :: d' => (k' =? k)%string || has_key d' k
  end.

(** *** [int(x)] *)

(** The characters that [int()] strips from both ends of a [str]: the space,
    U+0009 to U+000D, U+0085 and U+00A0. *)
Definition is_space (c : ascii) : bool :=
  let n := nat_of_ascii c in
  ((n =? 32) || ((9 <=? n) && (n <=? 13)) || (n =? 133) || (n =? 160))%nat.

Definition digit_of (c : ascii) : option Z :=
  let n := Z.of_nat (nat_of_ascii c) in
  if (48 <=? n) && (n <=? 57) then Some (n - 48) else None.

Fixpoint lstrip (s : string) : string :=
  match s with
  | String c s' => if is_space c then lstrip s' else s
  | EmptyString => EmptyString
  end.

Fixpoint rev_string (acc s : string) : string :=
  match s with
  | EmptyString => acc
  | String c s' => rev_string (String c acc) s'
  end.

Definition strip (s : string) : string :=
  rev_string "" (lstrip (rev_string "" (lstrip s))).

(** Decimal digits, a single underscore allowed between two digits. *)
Fixpoint int_digits (acc : Z) (after_digit : bool) (s : string) : option Z :=
  match s with
  | EmptyString => if after_digit then Some acc else None
  | String c s' =>
      match digit_of c with
      | Some d => int_digits (10 * acc + d) true s'
      | None =>
          if (c =? "_")%char && after_digit then int_digits acc false s'
          else None
      end
  end.

Fixpoint count_digits (s : string) : Z :=
  match s with
  | EmptyString => 0
  | String c s' =>
      (match digit_of c with Some _ => 1 | None => 0 end) + count_digits s'
  end.

(** [sys.get_int_max_str_digits()], at its default. *)
Definition int_max_str_digits : Z := 4300.

(** [int(s)] for a string, base 10. *)
Definition int_of_str (s : string) : option Z :=
  if int_max_str_digits <? count_digits s then None
  else
    match strip s with
    | String "-" s' => option_map Z.opp (int_digits 0 false s')
    | String "+" s' => int_digits 0 false s'
    | s' => int_digits 0 false s'
    end.

Definition int (v : json) : result Z :=
  match v with
  | JNull => inr TypeError
  | JBool b => inl (if b then 1 else 0)
  | JInt n => inl n
  | JFloat q => inl (Z.quot (Qnum q) (Zpos (Qden q)))
  | JInf _ => inr OverflowError
  | JNaN => inr ValueError
  | JStr s => match int_of_str s with Some n => inl n | None => inr ValueError end
  | JArr _ => inr TypeError
  | JObj _ => inr TypeError
  end.

(** *** [lower()], as SQLite has it: the letters A to Z only *)

Definition lower_ascii (c : ascii) : ascii :=
  let n := nat_of_ascii c in
  if ((65 <=? n) && (n <=? 90))%nat then ascii_of_nat (n + 32) else c.

Fixpoint lower (s : string) : string :=
  match s with
  | EmptyString => EmptyString
  | String c s' => String (lower_ascii c) (lower s')
  end.

End Py.

(** ** [datetime] *)

Module DateTime.

(** Time is counted in microseconds.  An aware [datetime] is an instant
    (since 1970-01-01T00:00:00Z) together with the offset of the zone it is
    shown in; a naive datetime has no offset and its [instant] is its wall
    clock, counted as if it were UTC. *)
Record datetime : Type := mk_datetime {
  instant : Z;
  utcoffset : option Z
}.

Definition us_per_minute : Z := 60000000.
Definition us_per_day : Z := 86400000000.

(** The year, month, ... that the datetime shows. *)
Definition wall (dt : datetime) : Z :=
  match utcoffset dt with
  | Some offset => instant dt + offset
  | None => instant dt
  end.

Definition is_leap (y : Z) : bool :=
  ((y mod 4 =? 0) && negb (y mod 100 =? 0)) || (y mod 400 =? 0).

Definition days_in_month (y m : Z) : Z :=
  if m =? 2 then (if is_leap y then 29 else 28)
  else if (m =? 4) || (m =? 6) || (m =? 9) || (m =? 11) then 30
  else 31.

(** Days from 1970-01-01 to the given date of the proleptic Gregorian
    calendar. *)
Definition days_from_civil (y m d : Z) : Z :=
  let y' := if m <=? 2 then y - 1 else y in
  let era := y' / 400 in
  let yoe := y' - era * 400 in
  let doy := (153 * (if 2 <? m then m - 3 else m + 9) + 2) / 5 + d - 1 in
  let doe := yoe * 365 + yoe / 4 - yoe / 100 + doy in
  era * 146097 + doe - 719468.

Definition civil_from_days (z : Z) : Z * Z * Z :=
  let z := z + 719468 in
  let era := z / 146097 in
  let doe := z - era * 146097 in
  let yoe := (doe - doe / 1460 + doe / 36524 - doe / 146096) / 365 in
  let doy := doe - (365 * yoe + yoe / 4 - yoe / 100) in
  let mp := (5 * doy + 2) / 153 in
  let d := doy - (153 * mp + 2) / 5 + 1 in
  let m := if mp <? 10 then mp + 3 else mp - 9 in
  let y := yoe + era * 400 in
  (if m <=? 2 then y + 1 else y, m, d).

(** [datetime.min] and [datetime.max], as wall clocks. *)
Definition min_instant : Z := days_from_civil 1 1 1 * us_per_day.
Definition max_instant : Z := days_from_civil 10000 1 1 * us_per_day - 1.

(** The arguments that fit the C integers of the constructor. *)
Definition c_int (n : Z) : bool := (- 2147483648 <=? n) && (n <=? 2147483647).

(** [datetime.datetime(year, month, day, hour, minute)]: a naive datetime;
    [ValueError] when a field is out of range, [OverflowError] when it does
    not even fit a C integer. *)
Definition naive (year month day hour minute : Z) : Py.result datetime :=
  if negb (c_int year && c_int month && c_int day && c_int hour && c_int minute)
  then inr Py.OverflowError
  else if (1 <=? year) && (year <=? 9999) && (1 <=? month) && (month <=? 12)
          && (1 <=? day) && (day <=? days_in_month year month)
          && (0 <=? hour) && (hour <=? 23) && (0 <=? minute) && (minute <=? 59)
  then inl (mk_datetime
              (days_from_civil year month day * us_per_day
               + (hour * 60 + minute) * us_per_minute) None)
  else inr Py.ValueError.

(** A zone gives the offset to use at a wall clock. *)
Definition tzinfo : Type := Z -> Z.

Definition UTC : tzinfo := fun _ => 0.

(** India has kept +05:30 since 1945-10-15; what [pytz] gives
    [Asia/Kolkata] for a wall clock before that day comes from its table,
    which is a parameter here. *)
Definition ist_since : Z := days_from_civil 1945 10 15 * us_per_day.

Definition Kolkata (table_before_1945 : tzinfo) : tzinfo :=
  fun wall_clock =>
    if ist_since <=? wall_clock then 330 * us_per_minute
    else table_before_1945 wall_clock.

(** [tz.localize(naive_dt)] for a zone with transitions: the wall clock is
    read in the zone [tz].  The search for the offset looks a day back and a
    day ahead of the wall clock, which raises [OverflowError] at the two
    ends of the calendar. *)
Definition localize (tz : tzinfo) (dt : datetime) : Py.result datetime :=
  if (min_instant + us_per_day <=? instant dt)
     && (instant dt <=? max_instant - us_per_day)
  then inl (mk_datetime (instant dt - tz (instant dt)) (Some (tz (instant dt))))
  else inr Py.OverflowError.

(** [dt.astimezone(UTC)]: the same instant shown in UTC; [OverflowError]
    when it leaves the years 1..9999. *)
Definition astimezone_utc (dt : datetime) : Py.result datetime :=
  if (min_instant <=? instant dt) && (instant dt <=? max_instant)
  then inl (mk_datetime (instant dt) (Some 0))
  else inr Py.OverflowError.

(** [a <= b]: two aware datetimes compare by their instants, two naive ones
    by their wall clocks, and a naive one does not compare with an aware
    one. *)
Definition le (a b : datetime) : Py.result bool :=
  match utcoffset a, utcoffset b with
  | Some _, Some _ => inl (instant a <=? instant b)
  | None, None => inl (instant a <=? instant b)
  | _, _ => inr Py.TypeError
  end.

(** *** [isoformat()] *)

Definition digit (n : Z) : ascii := ascii_of_nat (48 + Z.to_nat (n mod 10)).

Fixpoint pad (width : nat) (n : Z) (acc : string) : string :=
  match width with
  | O => acc
  | S w => pad w (n / 10) (String (digit n) acc)
  end.

Definition clock (us : Z) : string :=
  let secs := us / 1000000 in
  (pad 2 (secs / 3600) "" ++ ":" ++ pad 2 (secs / 60 mod 60) "")%string.

Definition seconds (us : Z) : string :=
  let secs := us / 1000000 in
  (":" ++ pad 2 (secs mod 60) ""
   ++ (if (us mod 1000000 =? 0)%Z then "" else "." ++ pad 6 (us mod 1000000) ""))%string.

Definition isoformat (dt : datetime) : string :=
  let days := wall dt / us_per_day in
  let rest := wall dt mod us_per_day in
  let '(y, m, d) := civil_from_days days in
  (pad 4 y "" ++ "-" ++ pad 2 m "" ++ "-" ++ pad 2 d "" ++ "T"
   ++ clock rest ++ seconds rest
   ++ match utcoffset dt with
      | None => ""
      | Some o =>
          (if (o <? 0)%Z then "-" else "+") ++ clock (Z.abs o)
          ++ (if (Z.abs o mod us_per_minute =? 0)%Z then "" else seconds (Z.abs o))
      end)%string.

End DateTime.

Import DateTime.
Import Py.

(** ** The data model: the two tables *)

(** A [DateTime] column of SQLite keeps the year, month, ... of the value it
    is given and no zone: what is read back is a naive datetime.  A row
    holds the wall clock that the column keeps. *)

Module FitnessClass.
Record t : Type := mk {
  id : Z;
  name : string;
  ist_column : Z;
  utc_column : Z;
  instructor : string;
  total_slots : Z;
  available_slots : Z;
  duration_minutes : Z
}.

(** The attributes [datetime_ist] and [datetime_utc] of a row that was
    read. *)
Definition datetime_ist (c : t) : datetime := mk_datetime (ist_column c) None.
Definition datetime_utc (c : t) : datetime := mk_datetime (utc_column c) None.

Definition with_available_slots (v : Z) (c : t) : t :=
  mk (id c) (name c) (ist_column c) (utc_column c) (instructor c)
     (total_slots c) v (duration_minutes c).
End FitnessClass.

Module Booking.
Record t : Type := mk {
  id : string;
  class_id : Z;
  client_name : string;
  client_email : string;
  time_column : Z
}.

Definition booking_time (b : t) : datetime := mk_datetime (time_column b) None.
End Booking.

(** The rows of [fitness_classes] and of [bookings], in the order a scan of
    the table yields them: the classes by ascending [id], which is the key
    of the table, the bookings as they were inserted. *)
Record Store : Type := mk_store {
  fitness_classes : list FitnessClass.t;
  bookings : list Booking.t
}.

Definition empty_store : Store := mk_store [] [].

(** ** The environment of a request *)

(** Which calls to the store raise during the request. *)
Record Faults : Type := mk_faults {
  query_fails : bool;      (* the queries of the handler *)
  commit_fails : bool;     (* [db.session.commit()] *)
  refresh_fails : bool     (* the reload of an object after the commit *)
}.

Definition no_faults : Faults := mk_faults false false false.

Record Env : Type := mk_env {
  now : Z;            (* [datetime.datetime.now(UTC)], the instant *)
  utcnow : Z;         (* [dt.utcnow()], read when a booking row is written *)
  uuid4 : string;     (* [str(uuid.uuid4())] *)
  faults : Faults;
  tzdata : tzinfo;    (* the table of [pytz] for Asia/Kolkata before 1945 *)
  real_text : Q -> string  (* the text SQLite makes of a float *)
}.

(** [IST = pytz.timezone('Asia/Kolkata')] *)
Definition IST (env : Env) : tzinfo := Kolkata (tzdata env).

(** [request]: the query string and the parsed JSON body ([JNull] when
    [get_json()] gives [None]). *)
Record Request : Type := mk_request {
  args : list (string * string);
  get_json : json
}.

Fixpoint args_get (a : list (string * string)) (k : string) : option string :=
  match a with
  | [] => None
  | (k', v) :: a' => if (k' =? k)%string then Some v else args_get a' k
  end.

(** ** The session: a unit of work over the store *)

Module Db.

(** What the session holds until it is flushed. *)
Inductive pending : Type :=
| Insert_class (id : Z) (name : string) (datetime_ist datetime_utc : datetime)
    (instructor : string) (total_slots available_slots duration_minutes : Z)
| Insert_booking (id : string) (class_id : Z) (client_name client_email : json)
| Update_available_slots (class_id : Z) (v : Z).

Record Session : Type := mk_session {
  db : Store;
  work : list pending
}.

Definition find_class (st : Store) (class_id : Z) : option FitnessClass.t :=
  find (fun c => FitnessClass.id c =? class_id) (fitness_classes st).

Definition has_booking_id (st : Store) (id : string) : bool :=
  existsb (fun b => (Booking.id b =? id)%string) (bookings st).

(** An [INTEGER] of SQLite has 64 bits; the driver raises [OverflowError]
    on a Python [int] beyond them. *)
Definition int64 (n : Z) : bool :=
  (- 9223372036854775808 <=? n) && (n <=? 9223372036854775807).

Definition bind_integer (n : Z) : result Z :=
  if int64 n then inl n else inr OverflowError.

(** The decimal text of an integer. *)
Fixpoint decimal_digits (fuel : nat) (n : Z) (acc : string) : string :=
  match fuel with
  | O => acc
  | S fuel' =>
      if n <? 10 then String (digit n) acc
      else decimal_digits fuel' (n / 10) (String (digit n) acc)
  end.

Definition decimal (n : Z) : string :=
  if n <? 0 then String "-" (decimal_digits 20 (- n) "")
  else decimal_digits 20 n "".

(** What a [VARCHAR] column keeps of the value it is given: a string as it
    is, a number as its text; [NaN] is bound as [NULL], which the columns
    refuse, and a list or an object cannot be bound. *)
Definition bind_text (real_text : Q -> string) (v : json) : result string :=
  match v with
  | JStr s => inl s
  | JInt n => if int64 n then inl (decimal n) else inr OverflowError
  | JBool b => inl (if b then "1" else "0")
  | JFloat q => inl (real_text q)
  | JInf negative => inl (if negative then "-Inf" else "Inf")
  | JNaN => inr IntegrityError
  | JNull => inr IntegrityError
  | JArr _ => inr StatementError
  | JObj _ => inr StatementError
  end.

(** The place of a new row in the scan of [fitness_classes]. *)
Fixpoint insert_by_id (c : FitnessClass.t) (l : list FitnessClass.t)
  : list FitnessClass.t :=
  match l with
  | [] => [c]
  | x :: l' =>
      if FitnessClass.id c <? FitnessClass.id x then c :: l
      else x :: insert_by_id c l'
  end.

(** One statement of a flush.  A primary key that is taken is refused; the
    foreign key of a booking is not checked by the store. *)
Definition apply (env : Env) (st : Store) (p : pending) : result Store :=
  match p with
  | Insert_class id name datetime_ist datetime_utc instructor
      total_slots available_slots duration_minutes =>
      if negb (int64 id && int64 total_slots && int64 available_slots
               && int64 duration_minutes)
      then inr OverflowError
      else
        match find_class st id with
        | Some _ => inr IntegrityError
        | None =>
            inl (mk_store
                   (insert_by_id
                      (FitnessClass.mk id name (wall datetime_ist)
                         (wall datetime_utc) instructor total_slots
                         available_slots duration_minutes)
                      (fitness_classes st))
                   (bookings st))
        end
  | Insert_booking id class_id client_name client_email =>
      match bind_integer class_id,
            bind_text (real_text env) client_name,
            bind_text (real_text env) client_email with
      | inl class_id', inl n, inl e =>
          if has_booking_id st id then inr IntegrityError
          else inl (mk_store (fitness_classes st)
                      (bookings st ++ [Booking.mk id class_id' n e (utcnow env)]))
      | inr x, _, _ => inr x
      | _, inr x, _ => inr x
      | _, _, inr x => inr x
      end
  | Update_available_slots class_id v =>
      if negb (int64 v) then inr OverflowError
      else
        inl (mk_store
               (map (fun c => if FitnessClass.id c =? class_id
                              then FitnessClass.with_available_slots v c else c)
                    (fitness_classes st))
               (bookings st))
  end.

Fixpoint flush (env : Env) (st : Store) (w : list pending) : result Store :=
  match w with
  | [] => inl st
  | p :: w' =>
      match apply env st p with
      | inl st' => flush env st' w'
      | inr x => inr x
      end
  end.

(** A computation in a session that returns or raises. *)
Definition Tx (A : Type) : Type := Session -> result A * Session.

Definition ret {A} (a : A) : Tx A := fun ss => (inl a, ss).
Definition raise {A} (x : exn) : Tx A := fun ss => (inr x, ss).
Definition lift {A} (r : result A) : Tx A := fun ss => (r, ss).

Definition bind {A B} (m : Tx A) (k : A -> Tx B) : Tx B :=
  fun ss =>
    match m ss with
    | (inl a, ss') => k a ss'
    | (inr x, ss') => (inr x, ss')
    end.

(** [try: m except Exception as e: h e] *)
Definition try_except {A} (m : Tx A) (h : exn -> Tx A) : Tx A :=
  fun ss =>
    match m ss with
    | (inl a, ss') => (inl a, ss')
    | (inr x, ss') => h x ss'
    end.

(** [FitnessClass.query.get(class_id)], with or without [with_for_update()]:
    the lock changes nothing for a single request. *)
Definition query_get (env : Env) (class_id : Z) : Tx (option FitnessClass.t) :=
  fun ss =>
    if query_fails (faults env) then (inr OperationalError, ss)
    else if negb (int64 class_id) then (inr OverflowError, ss)
    else (inl (find_class (db ss) class_id), ss).

(** [Model.query.filter(p).all()] over a table. *)
Definition query_filter {R} (env : Env) (table : Store -> list R)
    (p : R -> bool) : Tx (list R) :=
  fun ss =>
    if query_fails (faults env) then (inr OperationalError, ss)
    else (inl (filter p (table (db ss))), ss).

(** [db.session.add(obj)] and the assignment to a loaded attribute. *)
Definition session_add (p : pending) : Tx unit :=
  fun ss => (inl tt, mk_session (db ss) (work ss ++ [p])).

(** [db.session.commit()]: the pending work reaches the store as a whole or
    not at all. *)
Definition commit (env : Env) : Tx unit :=
  fun ss =>
    if commit_fails (faults env) then (inr OperationalError, ss)
    else match flush env (db ss) (work ss) with
         | inl st' => (inl tt, mk_session st' [])
         | inr x => (inr x, ss)
         end.

(** [db.session.rollback()] *)
Definition rollback : Tx unit :=
  fun ss => (inl tt, mk_session (db ss) []).

(** The commit expires the objects of the session: the next read of an
    attribute loads the row again. *)
Definition refresh (env : Env) (class_id : Z) : Tx FitnessClass.t :=
  fun ss =>
    if refresh_fails (faults env) then (inr OperationalError, ss)
    else match find_class (db ss) class_id with
         | Some c => (inl c, ss)
         | None => (inr OperationalError, ss)
         end.

(** A request runs in a session of its own, removed when the request ends:
    what was not committed is dropped. *)
Definition run {A} (m : Tx A) (st : Store) : result A * Store :=
  let '(r, ss) := m (mk_session st []) in (r, db ss).

End Db.

Import Db.

Notation "x <- m ;; k" := (bind m (fun x => k))
  (at level 61, m at next level, right associativity).
Notation "m ;;; k" := (bind m (fun _ => k))
  (at level 61, right associativity).

(** ** The handlers of [app.py] *)

(** What a view function returns: [jsonify(body), status]. *)
Definition Response : Type := (json * Z)%type.

Definition jsonify (body : json) (status : Z) : Response := (body, status).

Definition error (msg : string) : json := JObj [("error", JStr msg)].

(** *** [add_class] and [add_sample_classes] *)

Definition add_class (class_id : Z) (name : string)
    (year month day hour minute : Z) (instructor : string)
    (total_slots duration_minutes : Z) (env : Env) : Tx bool :=
  try_except
    (naive_dt <- lift (naive year month day hour minute) ;;
     ist_dt <- lift (localize (IST env) naive_dt) ;;
     utc_dt <- lift (astimezone_utc ist_dt) ;;
     existing_class <- query_get env class_id ;;
     match existing_class with
     | Some _ => ret false
     | None =>
         session_add
           (Insert_class class_id name ist_dt utc_dt instructor
              total_slots total_slots duration_minutes) ;;;
         commit env ;;;
         ret true
     end)
    (fun _ => rollback ;;; ret false).

Definition sample_class : Type :=
  (Z * string * Z * Z * Z * Z * Z * string * Z * Z)%type.

Definition sample_classes : list sample_class :=
  [ (1, "Yoga", 2025, 6, 10, 7, 0, "Priya Sharma", 15, 60);
    (2, "Zumba", 2025, 6, 10, 18, 30, "Rahul Verma", 20, 45);
    (3, "HIIT", 2025, 6, 11, 8, 0, "Amit Singh", 12, 30);
    (4, "Yoga", 2025, 6, 12, 7, 0, "Priya Sharma", 15, 60) ].

Definition add_class_tuple (cls : sample_class) (env : Env) : Tx bool :=
  let '(class_id, name, year, month, day, hour, minute, instructor,
        total_slots, duration_minutes) := cls in
  add_class class_id name year month day hour minute instructor
    total_slots duration_minutes env.

Fixpoint for_each {A} (l : list A) (f : A -> Tx bool) : Tx unit :=
  match l with
  | [] => ret tt
  | a :: l' => f a ;;; for_each l' f
  end.

Definition add_sample_classes (env : Env) : Tx unit :=
  for_each sample_classes (fun cls => add_class_tuple cls env).

(** [FitnessClass.query.first()] *)
Definition query_first (env : Env) : Tx (option FitnessClass.t) :=
  fun ss =>
    if query_fails (faults env) then (inr OperationalError, ss)
    else (inl (hd_error (fitness_classes (db ss))), ss).

(** The start-up of the module, after [db.create_all()]: an empty table of
    classes is seeded. *)
Definition startup (env : Env) : Tx unit :=
  first <- query_first env ;;
  match first with
  | Some _ => ret tt
  | None => add_sample_classes env
  end.

(** *** [GET /classes] *)

Definition class_dict (cls : FitnessClass.t) : json :=
  JObj [ ("id", JInt (FitnessClass.id cls));
         ("name", JStr (FitnessClass.name cls));
         ("datetime_ist", JStr (isoformat (FitnessClass.datetime_ist cls)));
         ("datetime_utc", JStr (isoformat (FitnessClass.datetime_utc cls)));
         ("instructor", JStr (FitnessClass.instructor cls));
         ("available_slots", JInt (FitnessClass.available_slots cls));
         ("total_slots", JInt (FitnessClass.total_slots cls));
         ("duration_minutes", JInt (FitnessClass.duration_minutes cls)) ].

(** The query of [get_classes]: the rows bound to [upcoming_classes].  The
    filter is evaluated by the store, on what the column keeps and on the
    year, month, ... of [now], which is in UTC. *)
Definition upcoming_classes (env : Env) : Tx (list FitnessClass.t) :=
  query_filter env fitness_classes
    (fun c => now env <? instant (FitnessClass.datetime_utc c)).

(** The handler reads nothing of the request. *)
Definition get_classes (req : Request) (env : Env) : Tx Response :=
  upcoming <- upcoming_classes env ;;
  let result := map class_dict upcoming in
  ret (jsonify (JArr result) 200).

(** *** [POST /book] *)

(** The lines 208 to 232 of [book_class]: the booking is made, the slot is
    taken, both are committed, and the reply is built from the class as the
    session loads it again. *)
Definition reserve (env : Env) (class_id : Z) (target_class : FitnessClass.t)
    (client_name client_email : json) : Tx Response :=
  let booking_id := uuid4 env in
  session_add
    (Update_available_slots class_id
       (FitnessClass.available_slots target_class - 1)) ;;;
  session_add (Insert_booking booking_id class_id client_name client_email) ;;;
  commit env ;;;
  target_class <- refresh env class_id ;;
  ret (jsonify
         (JObj [ ("message", JStr "Booking successful");
                 ("booking_id", JStr booking_id);
                 ("class_name", JStr (FitnessClass.name target_class));
                 ("class_datetime_ist",
                  JStr (isoformat (FitnessClass.datetime_ist target_class)));
                 ("available_slots",
                  JInt (FitnessClass.available_slots target_class)) ])
         201).

(** The [except Exception] of [book_class]. *)
Definition booking_failed : Tx Response :=
  rollback ;;;
  ret (jsonify (error "An error occurred while processing your booking") 500).

Definition book_class (req : Request) (env : Env) : Tx Response :=
  let data := get_json req in
  if negb (truthy data) then ret (jsonify (error "No data provided") 400)
  else
    match data with
    | JObj d =>
        let class_id := dict_get d "class_id" in
        let client_name := dict_get d "client_name" in
        let client_email := dict_get d "client_email" in
        if negb (all [class_id; client_name; client_email])
        then ret (jsonify (error "Missing required fields") 400)
        else
          match int class_id with
          | inr ValueError | inr TypeError =>
              ret (jsonify (error "class_id must be an integer") 400)
          | inr x => raise x
          | inl class_id =>
              try_except
                (target_class <- query_get env class_id ;;
                 match target_class with
                 | None => ret (jsonify (error "Class not found") 404)
                 | Some target_class =>
                     let now := mk_datetime (now env) (Some 0) in
                     started <- lift (le (FitnessClass.datetime_utc target_class) now) ;;
                     if (started : bool)
                     then ret (jsonify
                                 (error "Cannot book a class that has already started or ended")
                                 400)
                     else if FitnessClass.available_slots target_class <=? 0
                     then ret (jsonify (error "No available slots for this class") 409)
                     else reserve env class_id target_class client_name client_email
                 end)
                (fun _ => booking_failed)
          end
    | _ => raise AttributeError
    end.

(** *** [GET /bookings] *)

(** The [LIKE] of SQLite: [%] stands for any run of characters, [_] for any
    one character, nothing is escaped. *)
Fixpoint like (pattern text : string) : bool :=
  match pattern with
  | EmptyString => match text with EmptyString => true | _ => false end
  | String c pattern' =>
      if (c =? "%")%char then
        (fix any_run (t : string) : bool :=
           like pattern' t
           || match t with EmptyString => false | String _ t' => any_run t' end) text
      else
        match text with
        | EmptyString => false
        | String d text' => ((c =? "_")%char || (c =? d)%char) && like pattern' text'
        end
  end.

(** The text that [LIKE] reads of a value: it stops at the first NUL. *)
Fixpoint c_string (s : string) : string :=
  match s with
  | EmptyString => EmptyString
  | String c s' => if (c =? "000")%char then EmptyString else String c (c_string s')
  end.

(** [column.ilike(other)]: [lower(column) LIKE lower(other)]. *)
Definition ilike (column other : string) : bool :=
  like (c_string (lower other)) (c_string (lower column)).

(** The bytes of a string in UTF-8. *)
Fixpoint utf8_length (s : string) : Z :=
  match s with
  | EmptyString => 0
  | String c s' => (if (nat_of_ascii c <? 128)%nat then 1 else 2) + utf8_length s'
  end.

(** [SQLITE_MAX_LIKE_PATTERN_LENGTH], at its default: on the first row that
    it is evaluated for, [LIKE] refuses a longer pattern ('LIKE or GLOB
    pattern too complex'). *)
Definition like_pattern_limit : Z := 50000.

Definition like_fails {R} (pattern : string) (rows : list R) : bool :=
  (like_pattern_limit <? utf8_length pattern)
  && match rows with [] => false | _ :: _ => true end.

(** [booking.fitness_class]: the class of the backref, [None] when no row has
    the booking's [class_id]. *)
Definition fitness_class (st : Store) (b : Booking.t) : option FitnessClass.t :=
  find_class st (Booking.class_id b).

Definition booking_dict (st : Store) (booking : Booking.t) : result json :=
  match fitness_class st booking with
  | None => inr AttributeError
  | Some cls =>
      inl (JObj [ ("booking_id", JStr (Booking.id booking));
                  ("class_id", JInt (Booking.class_id booking));
                  ("class_name", JStr (FitnessClass.name cls));
                  ("class_datetime_ist", JStr (isoformat (FitnessClass.datetime_ist cls)));
                  ("client_name", JStr (Booking.client_name booking));
                  ("client_email", JStr (Booking.client_email booking));
                  ("booking_time", JStr (isoformat (Booking.booking_time booking))) ])
  end.

Fixpoint map_result {A B} (f : A -> result B) (l : list A) : result (list B) :=
  match l with
  | [] => inl []
  | a :: l' =>
      match f a with
      | inr x => inr x
      | inl b =>
          match map_result f l' with
          | inr x => inr x
          | inl bs => inl (b :: bs)
          end
      end
  end.

(** The query of [get_bookings]: the rows bound to [client_bookings]. *)
Definition client_bookings (env : Env) (email : string) : Tx (list Booking.t) :=
  fun ss =>
    if like_fails email (bookings (db ss)) then (inr OperationalError, ss)
    else query_filter env bookings
           (fun b => ilike (Booking.client_email b) email) ss.

Definition get_bookings (req : Request) (env : Env) : Tx Response :=
  match args_get (args req) "email" with
  | None => ret (jsonify (error "Email query parameter is required") 400)
  | Some email =>
      if (email =? "")%string
      then ret (jsonify (error "Email query parameter is required") 400)
      else
        try_except
          (found <- client_bookings env email ;;
           fun ss =>
             match map_result (booking_dict (db ss)) found with
             | inl result => ret (jsonify (JArr result) 200) ss
             | inr x => raise x ss
             end)
          (fun _ =>
             ret (jsonify (error "An error occurred while retrieving bookings") 500))
  end.

(** ** Requests against the store *)

(** What the client receives: the response of the handler, or the response
    that Flask makes of an exception that no handler caught. *)
Inductive Reply : Type :=
| Replied (body : json) (status : Z)
| Unhandled (x : exn).

Definition reply_of (r : result Response) : Reply :=
  match r with
  | inl (body, status) => Replied body status
  | inr x => Unhandled x
  end.

Definition status_of (r : Reply) : Z :=
  match r with
  | Replied _ status => status
  | Unhandled _ => 500
  end.

Definition serve (view : Request -> Env -> Tx Response)
    (req : Request) (env : Env) (st : Store) : Reply * Store :=
  let '(r, st') := run (view req env) st in (reply_of r, st').

(** ** Vocabulary of the properties *)

(** The number of booking rows that reference a class. *)
Definition count_bookings (st : Store) (class_id : Z) : Z :=
  Z.of_nat (List.length (filter (fun b => Booking.class_id b =? class_id) (bookings st))).

(** Two addresses that differ at most in the case of their letters. *)
Definition same_email (a b : string) : bool := (lower a =? lower b)%string.

(** The bookings of a (class, client) pair. *)
Definition bookings_of (st : Store) (class_id : Z) (email : string) : list Booking.t :=
  filter (fun b => (Booking.class_id b =? class_id)
                   && same_email (Booking.client_email b) email)
         (bookings st).

(** The envelope that [tests/test_api.py] reads in every body: a [status]
    of ["success"] or ["error"], and a [message] next to ["error"]. *)
Definition has_envelope (r : Reply) : bool :=
  match r with
  | Replied (JObj d) _ =>
      match dict_get d "status" with
      | JStr s =>
          if (s =? "success")%string then true
          else if (s =? "error")%string then has_key d "message"
          else false
      | _ => false
      end
  | _ => false
  end.

(** Ascending start times, as [ORDER BY datetime_utc] would give. *)
Fixpoint ascending (l : list Z) : bool :=
  match l with
  | a :: (b :: _) as l' => (a <=? b) && ascending l'
  | _ => true
  end.

(** The store keeps its keys: one class per id, and a class for every
    booking. *)
Definition keys_ok (st : Store) : Prop :=
  NoDup (map FitnessClass.id (fitness_classes st))
  /\ forall b, In b (bookings st) -> find_class st (Booking.class_id b) <> None.

(** The capacity invariant of one class. *)
Definition slots_ok (st : Store) (c : FitnessClass.t) : Prop :=
  0 <= FitnessClass.available_slots c <= FitnessClass.total_slots c
  /\ FitnessClass.available_slots c
     = FitnessClass.total_slots c - count_bookings st (FitnessClass.id c).

Definition invariant (st : Store) : Prop :=
  keys_ok st /\ forall c, In c (fitness_classes st) -> slots_ok st c.

(** What the block [reserve] commits when it commits: the slot taken from
    the rows of the class, and the booking appended. *)
Definition reserved (st : Store) (class_id slots : Z) (b : Booking.t) : Store :=
  mk_store
    (map (fun c =>
            if FitnessClass.id c =? class_id
            then FitnessClass.with_available_slots slots c
            else c)
         (fitness_classes st))
    (bookings st ++ [b]).

(** *** Histories of committed operations *)

Inductive Call : Type :=
| Call_add_class (class_id : Z) (name : string)
    (year month day hour minute : Z) (instructor : string)
    (total_slots duration_minutes : Z) (env : Env)
| Call_startup (env : Env)
| Call_get_classes (req : Request) (env : Env)
| Call_book_class (req : Request) (env : Env)
| Call_get_bookings (req : Request) (env : Env).

Definition step (st : Store) (c : Call) : Store :=
  match c with
  | Call_add_class class_id name year month day hour minute instructor
      total_slots duration_minutes env =>
      snd (run (add_class class_id name year month day hour minute instructor
                  total_slots duration_minutes env) st)
  | Call_startup env => snd (run (startup env) st)
  | Call_get_classes req env => snd (serve get_classes req env st)
  | Call_book_class req env => snd (serve book_class req env st)
  | Call_get_bookings req env => snd (serve get_bookings req env st)
  end.

Definition history (calls : list Call) : Store := fold_left step calls empty_store.

(** The calls of [add_sample_classes]. *)
Definition sample_calls (env : Env) : list Call :=
  map (fun cls : sample_class =>
         let '(class_id, name, year, month, day, hour, minute, instructor,
               total_slots, duration_minutes) := cls in
         Call_add_class class_id name year month day hour minute instructor
           total_slots duration_minutes env)
      sample_classes.

(** What the calls can make of a store: rows with new ids enter the table
    of classes, one at a time, all their slots free. *)
Inductive evolves : Store -> Store -> Prop :=
| Evolves_refl st : evolves st st
| Evolves_class st c st' :
    find_class st (FitnessClass.id c) = None ->
    FitnessClass.available_slots c = FitnessClass.total_slots c ->
    evolves (mk_store (insert_by_id c (fitness_classes st)) (bookings st)) st' ->
    evolves st st'.

(** Strictly ascending ids. *)
Fixpoint ascending_ids (l : list FitnessClass.t) : bool :=
  match l with
  | a :: (b :: _) as l' => (FitnessClass.id a <? FitnessClass.id b) && ascending_ids l'
  | _ => true
  end.

(** The data model gives a class a capacity that is not negative. *)
Definition capacity_ok (c : Call) : bool :=
  match c with
  | Call_add_class _ _ _ _ _ _ _ _ total_slots _ _ => 0 <=? total_slots
  | _ => true
  end.

(** The request is refused with the given error, and the store is left as
    it was. *)
Definition refuses (req : Request) (env : Env) (st : Store)
    (msg : string) (status : Z) : Prop :=
  serve book_class req env st = (Replied (error msg) status, st).

(** [add_class], unfolded into its decisions. *)
Definition add_class_decides (class_id : Z) (name : string)
    (year month day hour minute : Z) (instructor : string)
    (total_slots duration_minutes : Z) (env : Env) (st : Store)
  : bool * Store :=
  match naive year month day hour minute with
  | inr _ => (false, st)
  | inl naive_dt =>
      match localize (IST env) naive_dt with
      | inr _ => (false, st)
      | inl ist_dt =>
          match astimezone_utc ist_dt with
          | inr _ => (false, st)
          | inl utc_dt =>
              if query_fails (faults env) then (false, st)
              else if negb (int64 class_id) then (false, st)
              else
                match find_class st class_id with
                | Some _ => (false, st)
                | None =>
                    if commit_fails (faults env) then (false, st)
                    else if negb (int64 total_slots && int64 duration_minutes)
                    then (false, st)
                    else
                      (true,
                       mk_store
                         (insert_by_id
                            (FitnessClass.mk class_id name (wall ist_dt)
                               (wall utc_dt) instructor total_slots total_slots
                               duration_minutes)
                            (fitness_classes st))
                         (bookings st))
                end
          end
      end
  end.


(** *** The lookup of bookings *)

(** An address that has none of the wildcards of [LIKE]. *)
Fixpoint wildcard_free (s : string) : bool :=
  match s with
  | EmptyString => true
  | String c s' =>
      negb (c =? "%")%char && negb (c =? "_")%char && wildcard_free s'
  end.

(** A string without the NUL character. *)
Fixpoint nul_free (s : string) : bool :=
  match s with
  | EmptyString => true
  | String c s' => negb (c =? "000")%char && nul_free s'
  end.

(** The lookup in the words of the specification: 400 for an absent
    parameter, and otherwise the bookings whose address is the given one up
    to the case of its letters. *)
Definition lookup_as_specified (req : Request) (env : Env) (st : Store) : Prop :=
  match args_get (args req) "email" with
  | None => status_of (fst (serve get_bookings req env st)) = 400
  | Some email =>
      exists result,
        fst (serve get_bookings req env st) = Replied (JArr result) 200
        /\ map_result (booking_dict st)
             (filter (fun b => same_email (Booking.client_email b) email)
                     (bookings st))
           = inl result
  end.

(** *** A schedule to run the handlers on *)

Module Scenario.

Definition at_ (year month day hour minute : Z) : Z :=
  days_from_civil year month day * us_per_day + (hour * 60 + minute) * us_per_minute.

(** The clock at an hour of a day of June 2025 (UTC), and a store without
    faults. *)
Definition env_on (day hour : Z) (uuid : string) : Env :=
  mk_env (at_ 2025 6 day hour 0) (at_ 2025 6 day hour 0) uuid no_faults
    (fun _ => 330 * us_per_minute) (fun _ => "0.0").

(** The store as [app.py] seeds it at start-up. *)
Definition seeded : Store := snd (run (startup (env_on 1 0 "")) empty_store).

Definition post_book (class_id : json) (client_name client_email : string) : Request :=
  mk_request []
    (JObj [ ("class_id", class_id);
            ("client_name", JStr client_name);
            ("client_email", JStr client_email) ]).

Definition get (query : list (string * string)) : Request := mk_request query JNull.

End Scenario.

(** *** The store of [tests/test_api.py] *)

Module Fixture.
Import Scenario.

(** [dt.replace(hour=h, minute=0, second=0, microsecond=0)] on a wall
    clock. *)
Definition at_hour (wall_clock h : Z) : Z :=
  wall_clock / us_per_day * us_per_day + h * 60 * us_per_minute.

(** [add_test_data()], run on the empty database of the tests when the
    clock reads [now] (UTC) in a year where India is at +05:30: three
    classes, which get the ids 1, 2 and 3, and one booking of the first. *)
Definition add_test_data (now : Z) : Store :=
  let now_ist := now + 330 * us_per_minute in
  let future := now_ist + us_per_day in
  let past := now_ist - us_per_day in
  let utc wall_clock := wall_clock - 330 * us_per_minute in
  mk_store
    [ FitnessClass.mk 1 "Morning Yoga" (at_hour future 8) (utc (at_hour future 8))
        "Priya Sharma" 10 5 60;
      FitnessClass.mk 2 "Evening HIIT" (at_hour future 18) (utc (at_hour future 18))
        "Rahul Verma" 10 0 45;
      FitnessClass.mk 3 "Past Yoga" (at_hour past 10) (utc (at_hour past 10))
        "Priya Sharma" 10 3 60 ]
    [ Booking.mk "test-booking-123" 1 "Test User" "test@example.com" now ].

(** The fixture on 2025-06-09 at 06:30 UTC, and the clock of the requests a
    minute later. *)
Definition store : Store := add_test_data (at_ 2025 6 9 6 30).

Definition env : Env :=
  mk_env (at_ 2025 6 9 6 31) (at_ 2025 6 9 6 31) "uuid-1" no_faults
    (fun _ => 330 * us_per_minute) (fun _ => "0.0").


Definition book_duplicate : Reply * Store :=
  serve book_class (post_book (JInt 1) "Test User" "test@example.com") env store.

Definition book_full : Reply * Store :=
  serve book_class (post_book (JInt 2) "New User" "new.user@example.com") env store.

Definition book_past : Reply * Store :=
  serve book_class (post_book (JInt 3) "New User" "new.user@example.com") env store.

Definition book_invalid_email : Reply * Store :=
  serve book_class (post_book (JInt 1) "Test User" "invalid-email") env store.

(** The same address for a class that is not there. *)
Definition book_invalid_email_unknown_class : Reply * Store :=
  serve book_class (post_book (JInt 999) "Test User" "invalid-email") env store.

(** The fixture with the past class full and booked by the client: a
    request of it is late, a duplicate and without a slot at once. *)
Definition crowded : Store :=
  mk_store
    [ FitnessClass.mk 3 "Past Yoga" (at_ 2025 6 8 10 0) (at_ 2025 6 8 4 30)
        "Priya Sharma" 10 0 60 ]
    [ Booking.mk "test-booking-456" 3 "Test User" "test@example.com"
        (at_ 2025 6 7 6 30) ].

Definition book_crowded : Reply * Store :=
  serve book_class (post_book (JInt 3) "Test User" "test@example.com") env crowded.

End Fixture.

Module Demo.
Import Scenario.

Definition calls : list Call :=
  [ Call_startup (env_on 1 0 "");
    Call_book_class (post_book (JInt 1) "Asha" "asha@example.com") (env_on 1 0 "uuid-1");
    Call_book_class (post_book (JStr "1") "Ravi" "ravi@example.com") (env_on 1 0 "uuid-2");
    Call_add_class 9 "Pilates" 2025 6 20 9 0 "Meera Nair" 0 50 (env_on 1 0 "") ].

(** Class 1 as it is seeded. *)
Definition yoga : FitnessClass.t :=
  FitnessClass.mk 1 "Yoga" (at_ 2025 6 10 7 0) (at_ 2025 6 10 1 30)
    "Priya Sharma" 15 15 60.

(** A class that is entered with a capacity below zero. *)
Definition negative_capacity : Store :=
  history [ Call_add_class 9 "Pilates" 2025 6 20 9 0 "Meera Nair" (-3) 50
              (env_on 1 0 "") ].

End Demo.

Module Runs.
Import Scenario.

(** A request for class 1 of the seeded schedule, ten days before it
    starts. *)
Definition first_booking : Reply * Store :=
  serve book_class (post_book (JInt 1) "Test User" "test@example.com")
    (env_on 1 0 "uuid-1") seeded.

(** [test_get_classes_include_past], on 2025-06-10 at noon UTC: class 1 has
    started, the others have not. *)
Definition include_past : Reply * Store :=
  serve get_classes (get [("include_past", "true")]) (env_on 10 12 "") seeded.

(** A class entered after the others that starts before them. *)
Definition early_class : Store :=
  step seeded
    (Call_add_class 5 "Pilates" 2025 6 9 7 0 "Meera Nair" 10 50 (env_on 1 0 "")).

Definition listing : Reply * Store :=
  serve get_classes (get []) (env_on 1 0 "") early_class.

(** [test_book_class_past], on 2025-06-10 at noon UTC. *)
Definition past_class : Reply * Store :=
  serve book_class (post_book (JInt 1) "New User" "new.user@example.com")
    (env_on 10 12 "uuid-1") seeded.

(** [test_invalid_email], second half: no [email] parameter. *)
Definition no_email : Reply * Store :=
  serve get_bookings (get []) (env_on 1 0 "") seeded.

End Runs.

Module Cases.
Import Scenario.

Definition env : Env := env_on 1 0 "uuid-1".
Definition later : Env := env_on 2 0 "uuid-2".

(** The fields of a booking of class 1 by Asha, and variants of its id. *)
Definition fields (class_id : json) : list (string * json) :=
  [ ("class_id", class_id);
    ("client_name", JStr "Asha");
    ("client_email", JStr "asha@example.com") ].

Definition book (class_id : json) : Request := mk_request [] (JObj (fields class_id)).


Definition lookup : Request := get [("email", "TEST@Example.com")].

(** The seeded schedule with a class under the id 0. *)
Definition with_class_zero : Store :=
  step seeded
    (Call_add_class 0 "Stretch" 2025 6 15 9 0 "Meera Nair" 8 30 env).

(** Calls of all kinds. *)
Definition more_calls : list Call :=
  [ Call_book_class (post_book (JInt 1) "Ravi" "ravi@example.com") (env_on 1 1 "uuid-2");
    Call_add_class 0 "Stretch" 2025 6 15 9 0 "Meera Nair" 8 30 (env_on 1 2 "");
    Call_book_class (post_book (JInt 2) "Asha" "Asha@Example.com") (env_on 1 2 "uuid-3");
    Call_add_class 9 "Pilates" 2025 6 20 9 0 "Meera Nair" 5 50 (env_on 1 3 "");
    Call_get_classes (get []) (env_on 1 4 "");
    Call_startup (env_on 1 5 "") ].

(** Class 1 as seeded. *)
Definition yoga : FitnessClass.t :=
  FitnessClass.mk 1 "Yoga" (at_ 2025 6 10 7 0) (at_ 2025 6 10 1 30)
    "Priya Sharma" 15 15 60.

End Cases.

(** * Properties *)

(** ** Requests and sessions *)

Lemma serve_session view req env st :
  serve view req env st
  = (reply_of (fst (view req env (mk_session st []))),
     db (snd (view req env (mk_session st [])))).
Proof.
  unfold serve, run. destruct (view req env (mk_session st [])); reflexivity.
Qed.

Lemma find_class_some st class_id c :
  find_class st class_id = Some c ->
  In c (fitness_classes st) /\ FitnessClass.id c = class_id.
Proof.
  unfold find_class. intros H. apply find_some in H.
  destruct H as [Hin Heq]. apply Z.eqb_eq in Heq. auto.
Qed.

Lemma find_class_none st class_id :
  find_class st class_id = None ->
  forall c, In c (fitness_classes st) -> FitnessClass.id c <> class_id.
Proof.
  unfold find_class. intros H c Hin Heq.
  apply (find_none _ _ H) in Hin. apply Z.eqb_neq in Hin. contradiction.
Qed.


(** ** What a booking request does *)

(** The comparison of line 201: the [datetime_utc] of a row that was read is
    naive and [now] is aware. *)
Lemma started_check_raises (c : FitnessClass.t) (env : Env) :
  le (FitnessClass.datetime_utc c) (mk_datetime (now env) (Some 0)) = inr TypeError.
Proof. reflexivity. Qed.

(** Whatever the request, the handler leaves the store and the session as
    they were, and its reply is not a 201. *)
Lemma book_class_session req env st :
  exists r,
    book_class req env (mk_session st []) = (r, mk_session st [])
    /\ status_of (reply_of r) <> 201.
Proof.
  unfold book_class.
  destruct (truthy (get_json req)); cbn [negb];
    [| eexists; split; [reflexivity | cbn; discriminate]].
  destruct (get_json req) as [| | | | | | | |d];
    try (eexists; split; [reflexivity | cbn; discriminate]).
  destruct (all _); cbn [negb];
    [| eexists; split; [reflexivity | cbn; discriminate]].
  destruct (int (dict_get d "class_id")) as [class_id|x];
    [| destruct x; eexists; (split; [reflexivity | cbn; discriminate])].
  unfold try_except, bind, query_get.
  destruct (query_fails (faults env));
    [eexists; split; [reflexivity | cbn; discriminate]|].
  destruct (int64 class_id); cbn [negb];
    [| eexists; split; [reflexivity | cbn; discriminate]].
  cbn [db].
  destruct (find_class st class_id) as [c|];
    eexists; (split; [reflexivity | cbn; discriminate]).
Qed.

Lemma book_class_reads req env st : snd (serve book_class req env st) = st.
Proof.
  rewrite serve_session. destruct (book_class_session req env st) as (r & -> & _).
  reflexivity.
Qed.

Lemma get_classes_reads req env st : snd (serve get_classes req env st) = st.
Proof.
  rewrite serve_session. unfold get_classes, upcoming_classes, bind, query_filter.
  cbn [snd]. destruct (query_fails (faults env)); reflexivity.
Qed.

(** The reply of [get_bookings], case by case. *)
Lemma get_bookings_session req env st :
  get_bookings req env (mk_session st [])
  = (inl match args_get (args req) "email" with
         | None => (error "Email query parameter is required", 400)
         | Some email =>
             if (email =? "")%string
             then (error "Email query parameter is required", 400)
             else if like_fails email (bookings st) || query_fails (faults env)
             then (error "An error occurred while retrieving bookings", 500)
             else match map_result (booking_dict st)
                          (filter (fun b => ilike (Booking.client_email b) email)
                                  (bookings st)) with
                  | inl result => (JArr result, 200)
                  | inr _ => (error "An error occurred while retrieving bookings", 500)
                  end
         end,
     mk_session st []).
Proof.
  unfold get_bookings, client_bookings, try_except, bind, query_filter.
  destruct (args_get (args req) "email") as [email|]; [|reflexivity].
  destruct (email =? "")%string; [reflexivity|]. cbn [db].
  destruct (like_fails email (bookings st)); [reflexivity|]. cbn [orb].
  destruct (query_fails (faults env)); [reflexivity|].
  cbn [db]. destruct (map_result _ _); reflexivity.
Qed.

Lemma get_bookings_reads req env st : snd (serve get_bookings req env st) = st.
Proof. rewrite serve_session, get_bookings_session. reflexivity. Qed.

(** ** The checks of [book_class], in the order of the source *)

Section Checks.

Variables (req : Request) (env : Env) (st : Store).
Variable d : list (string * json).
Hypothesis body_is_dict : get_json req = JObj d.
Hypothesis body_not_empty : d <> [].

(** A field that is missing, [null], empty or zero: 400, nothing opened. *)
Lemma missing_field_refused :
  all [dict_get d "class_id"; dict_get d "client_name"; dict_get d "client_email"]
  = false ->
  refuses req env st "Missing required fields" 400.
Proof.
  intros Hall. unfold refuses. rewrite serve_session.
  unfold book_class. rewrite body_is_dict.
  cbn [truthy]. destruct d; [contradiction|]. cbn [negb].
  rewrite Hall. reflexivity.
Qed.

(** A [class_id] that [int()] rejects: 400, nothing opened. *)
Lemma bad_class_id_refused :
  all [dict_get d "class_id"; dict_get d "client_name"; dict_get d "client_email"]
  = true ->
  int (dict_get d "class_id") = inr ValueError
  \/ int (dict_get d "class_id") = inr TypeError ->
  refuses req env st "class_id must be an integer" 400.
Proof.
  intros Hall Hint. unfold refuses. rewrite serve_session.
  unfold book_class. rewrite body_is_dict.
  cbn [truthy]. destruct d; [contradiction|]. cbn [negb].
  rewrite Hall. cbn [negb]. destruct Hint as [-> | ->]; reflexivity.
Qed.

Variable class_id : Z.
Hypothesis fields_present :
  all [dict_get d "class_id"; dict_get d "client_name"; dict_get d "client_email"]
  = true.
Hypothesis class_id_is_int : int (dict_get d "class_id") = inl class_id.

(** No class under the id, on a store that answers: 404. *)
Lemma unknown_class_refused :
  query_fails (faults env) = false ->
  int64 class_id = true ->
  find_class st class_id = None ->
  refuses req env st "Class not found" 404.
Proof.
  intros Hq H64 Hfind. unfold refuses. rewrite serve_session.
  unfold book_class. rewrite body_is_dict.
  cbn [truthy]. destruct d; [contradiction|]. cbn [negb].
  rewrite fields_present, class_id_is_int. cbn [negb].
  unfold try_except, bind, query_get. rewrite Hq, H64. cbn [db negb].
  rewrite Hfind. reflexivity.
Qed.

(** A class under the id: the comparison of its start with [now] raises,
    and the request is answered 500, whatever the start, the free slots,
    the client and the state of the store. *)
Lemma found_class_refused c :
  find_class st class_id = Some c ->
  refuses req env st "An error occurred while processing your booking" 500.
Proof.
  intros Hfind. unfold refuses. rewrite serve_session.
  unfold book_class. rewrite body_is_dict.
  cbn [truthy]. destruct d; [contradiction|]. cbn [negb].
  rewrite fields_present, class_id_is_int. cbn [negb].
  unfold try_except, bind, query_get.
  destruct (query_fails (faults env)); [reflexivity|].
  destruct (int64 class_id); [| reflexivity].
  cbn [db negb]. rewrite Hfind. reflexivity.
Qed.

End Checks.

(** ** The listing of classes *)

(** [get_classes] lists the classes that start after [now], in the order of
    the table, whatever the query string says. *)
Lemma get_classes_lists req env st :
  query_fails (faults env) = false ->
  serve get_classes req env st
  = (Replied
       (JArr (map class_dict
                (filter (fun c => now env <? instant (FitnessClass.datetime_utc c))
                        (fitness_classes st))))
       200,
     st).
Proof.
  intros Hq. rewrite serve_session.
  unfold get_classes, upcoming_classes, bind, query_filter. rewrite Hq.
  reflexivity.
Qed.

(** ** The shape of the replies *)

Lemma no_envelope req env st :
  has_envelope (fst (serve get_classes req env st)) = false
  /\ has_envelope (fst (serve book_class req env st)) = false
  /\ has_envelope (fst (serve get_bookings req env st)) = false.
Proof.
  rewrite !serve_session. cbn [fst]. repeat split.
  - unfold get_classes, upcoming_classes, bind, query_filter.
    destruct (query_fails (faults env)); reflexivity.
  - unfold book_class.
    destruct (truthy (get_json req)); cbn [negb]; [| reflexivity].
    destruct (get_json req) as [| | | | | | | |d]; try reflexivity.
    destruct (all _); cbn [negb]; [| reflexivity].
    destruct (int (dict_get d "class_id")) as [class_id|x];
      [| destruct x; reflexivity].
    unfold try_except, bind, query_get.
    destruct (query_fails (faults env)); [reflexivity|].
    destruct (int64 class_id); [| reflexivity].
    cbn [db negb].
    destruct (find_class st class_id) as [c|]; reflexivity.
  - rewrite get_bookings_session. cbn [fst reply_of].
    destruct (args_get (args req) "email") as [email|]; [|reflexivity].
    destruct (email =? "")%string; [reflexivity|].
    destruct (_ || _); [reflexivity|].
    destruct (map_result _ _); reflexivity.
Qed.

(** ** What [add_class] does *)

Lemma add_class_session class_id name year month day hour minute instructor
    total_slots duration_minutes env st :
  add_class class_id name year month day hour minute instructor
    total_slots duration_minutes env (mk_session st [])
  = (inl (fst (add_class_decides class_id name year month day hour minute
                 instructor total_slots duration_minutes env st)),
     mk_session
       (snd (add_class_decides class_id name year month day hour minute
               instructor total_slots duration_minutes env st)) []).
Proof.
  unfold add_class, add_class_decides, try_except, bind, lift.
  destruct (naive year month day hour minute) as [naive_dt|x]; [|reflexivity].
  destruct (localize (IST env) naive_dt) as [ist_dt|x]; [|reflexivity].
  destruct (astimezone_utc ist_dt) as [utc_dt|x]; [|reflexivity].
  unfold query_get.
  destruct (query_fails (faults env)); [reflexivity|].
  destruct (int64 class_id) eqn:H64; [|reflexivity].
  cbn [negb db].
  destruct (find_class st class_id) eqn:Hfind; [reflexivity|].
  unfold session_add, commit, ret. cbn [db work app].
  destruct (commit_fails (faults env)); [reflexivity|].
  cbn [flush apply]. rewrite H64. cbn [andb].
  destruct (int64 total_slots); [|reflexivity]. cbn [andb].
  destruct (int64 duration_minutes); [|reflexivity]. cbn [negb].
  rewrite Hfind. reflexivity.
Qed.

Lemma add_class_eval class_id name year month day hour minute instructor
    total_slots duration_minutes env st :
  run (add_class class_id name year month day hour minute instructor
         total_slots duration_minutes env) st
  = (inl (fst (add_class_decides class_id name year month day hour minute
                 instructor total_slots duration_minutes env st)),
     snd (add_class_decides class_id name year month day hour minute
            instructor total_slots duration_minutes env st)).
Proof. unfold run. rewrite add_class_session. reflexivity. Qed.

Lemma add_class_step class_id name year month day hour minute instructor
    total_slots duration_minutes env st :
  step st (Call_add_class class_id name year month day hour minute instructor
             total_slots duration_minutes env)
  = snd (add_class_decides class_id name year month day hour minute
           instructor total_slots duration_minutes env st).
Proof. cbn [step]. rewrite add_class_eval. reflexivity. Qed.

(** Either nothing changes, or one row with a new id enters the table of
    classes, all slots free. *)
Lemma add_class_cases class_id name year month day hour minute instructor
    total_slots duration_minutes env st :
  add_class_decides class_id name year month day hour minute instructor
    total_slots duration_minutes env st = (false, st)
  \/ exists c,
       add_class_decides class_id name year month day hour minute instructor
         total_slots duration_minutes env st
       = (true, mk_store (insert_by_id c (fitness_classes st)) (bookings st))
       /\ find_class st (FitnessClass.id c) = None
       /\ FitnessClass.id c = class_id
       /\ FitnessClass.total_slots c = total_slots
       /\ FitnessClass.available_slots c = total_slots.
Proof.
  unfold add_class_decides.
  destruct (naive year month day hour minute) as [naive_dt|x]; [|now left].
  destruct (localize (IST env) naive_dt) as [ist_dt|x]; [|now left].
  destruct (astimezone_utc ist_dt) as [utc_dt|x]; [|now left].
  destruct (query_fails (faults env)); [now left|].
  destruct (int64 class_id); [|now left]. cbn [negb].
  destruct (find_class st class_id) eqn:Hfind; [now left|].
  destruct (commit_fails (faults env)); [now left|].
  destruct (int64 total_slots && int64 duration_minutes); [|now left].
  cbn [negb]. right. eexists. split; [reflexivity|].
  cbn [FitnessClass.id FitnessClass.total_slots FitnessClass.available_slots].
  auto.
Qed.

(** ** The scan of the table of classes *)

Lemma insert_by_id_in c l x : In x (insert_by_id c l) <-> x = c \/ In x l.
Proof.
  induction l as [|a l IH]; cbn [insert_by_id].
  - cbn. intuition.
  - destruct (FitnessClass.id c <? FitnessClass.id a).
    + cbn. intuition.
    + cbn [In]. rewrite IH. intuition.
Qed.

Lemma insert_by_id_ids c l x :
  In x (map FitnessClass.id (insert_by_id c l))
  <-> x = FitnessClass.id c \/ In x (map FitnessClass.id l).
Proof.
  rewrite !in_map_iff. split.
  - intros (y & <- & Hin). apply insert_by_id_in in Hin as [-> | Hin]; [now left|].
    right. now exists y.
  - intros [-> | (y & <- & Hin)].
    + exists c. split; [reflexivity|]. apply insert_by_id_in. now left.
    + exists y. split; [reflexivity|]. apply insert_by_id_in. now right.
Qed.

Lemma insert_by_id_nodup c l :
  ~ In (FitnessClass.id c) (map FitnessClass.id l) ->
  NoDup (map FitnessClass.id l) ->
  NoDup (map FitnessClass.id (insert_by_id c l)).
Proof.
  induction l as [|a l IH]; cbn [insert_by_id map]; intros Hnew Hnd.
  - constructor; [intros [] | constructor].
  - destruct (FitnessClass.id c <? FitnessClass.id a).
    + cbn [map]. constructor; assumption.
    + cbn [map]. inversion Hnd as [|? ? Ha Hl]; subst. constructor.
      * rewrite insert_by_id_ids. intros [Heq | Hin]; [|contradiction].
        apply Hnew. left. congruence.
      * apply IH; [|assumption]. intros Hin. apply Hnew. now right.
Qed.

Lemma find_insert_by_id c l class_id :
  find (fun x => FitnessClass.id x =? FitnessClass.id c) l = None ->
  find (fun x => FitnessClass.id x =? class_id) (insert_by_id c l)
  = if FitnessClass.id c =? class_id then Some c
    else find (fun x => FitnessClass.id x =? class_id) l.
Proof.
  induction l as [|a l IH]; cbn [insert_by_id find]; intros Hnew.
  - destruct (FitnessClass.id c =? class_id); reflexivity.
  - destruct (FitnessClass.id a =? FitnessClass.id c) eqn:Hac; [discriminate|].
    destruct (FitnessClass.id c <? FitnessClass.id a); cbn [find].
    + destruct (FitnessClass.id c =? class_id); reflexivity.
    + destruct (FitnessClass.id a =? class_id) eqn:Ha.
      * apply Z.eqb_eq in Ha. apply Z.eqb_neq in Hac.
        destruct (FitnessClass.id c =? class_id) eqn:Hc; [|reflexivity].
        apply Z.eqb_eq in Hc. congruence.
      * apply IH, Hnew.
Qed.

Lemma find_class_inserted st c class_id :
  find_class st (FitnessClass.id c) = None ->
  find_class (mk_store (insert_by_id c (fitness_classes st)) (bookings st)) class_id
  = if FitnessClass.id c =? class_id then Some c else find_class st class_id.
Proof. unfold find_class. cbn [fitness_classes]. apply find_insert_by_id. Qed.

(** ** What the start-up does *)

Lemma add_sample_classes_session env (l : list sample_class) st :
  for_each l (fun cls => add_class_tuple cls env) (mk_session st [])
  = (inl tt,
     mk_session
       (fold_left step
          (map (fun cls : sample_class =>
                  let '(class_id, name, year, month, day, hour, minute,
                        instructor, total_slots, duration_minutes) := cls in
                  Call_add_class class_id name year month day hour minute
                    instructor total_slots duration_minutes env) l)
          st) []).
Proof.
  revert st. induction l as [|cls l IH]; intros st; [reflexivity|].
  destruct cls as [[[[[[[[[class_id name] year] month] day] hour] minute]
                      instructor] total_slots] duration_minutes].
  cbn [for_each add_class_tuple map fold_left]. unfold bind at 1.
  rewrite add_class_session, add_class_step. apply IH.
Qed.

Lemma startup_eval env st :
  run (startup env) st
  = if query_fails (faults env) then (inr OperationalError, st)
    else match fitness_classes st with
         | [] => (inl tt, fold_left step (sample_calls env) st)
         | _ :: _ => (inl tt, st)
         end.
Proof.
  unfold run, startup, bind, query_first.
  destruct (query_fails (faults env)); [reflexivity|]. cbn [db].
  destruct (fitness_classes st); [|reflexivity]. cbn [hd_error].
  unfold add_sample_classes. rewrite add_sample_classes_session. reflexivity.
Qed.

Lemma startup_step env st :
  step st (Call_startup env) = st
  \/ (fitness_classes st = []
      /\ step st (Call_startup env) = fold_left step (sample_calls env) st).
Proof.
  cbn [step]. rewrite startup_eval.
  destruct (query_fails (faults env)); [now left|].
  destruct (fitness_classes st); [now right | now left].
Qed.

(** ** What a history of calls keeps *)

Lemma evolves_trans st1 st2 st3 :
  evolves st1 st2 -> evolves st2 st3 -> evolves st1 st3.
Proof.
  induction 1 as [|st c st' Hnew Hfree _ IH]; [auto|].
  intros H. eapply Evolves_class; eauto.
Qed.

Lemma add_class_evolves class_id name year month day hour minute instructor
    total_slots duration_minutes env st :
  evolves st
    (step st (Call_add_class class_id name year month day hour minute
                instructor total_slots duration_minutes env)).
Proof.
  rewrite add_class_step.
  destruct (add_class_cases class_id name year month day hour minute instructor
              total_slots duration_minutes env st)
    as [-> | (c & -> & Hnew & _ & Htotal & Hfree)]; cbn [snd].
  - constructor.
  - eapply Evolves_class; [exact Hnew | congruence | constructor].
Qed.

Lemma sample_calls_evolve env st :
  evolves st (fold_left step (sample_calls env) st).
Proof.
  unfold sample_calls, sample_classes. cbn [map fold_left].
  repeat (eapply evolves_trans; [| apply add_class_evolves]).
  constructor.
Qed.

Lemma step_evolves st call : evolves st (step st call).
Proof.
  destruct call.
  - apply add_class_evolves.
  - destruct (startup_step env st) as [-> | [_ ->]];
      [constructor | apply sample_calls_evolve].
  - cbn [step]. rewrite get_classes_reads. constructor.
  - cbn [step]. rewrite book_class_reads. constructor.
  - cbn [step]. rewrite get_bookings_reads. constructor.
Qed.

Lemma fold_evolves calls st : evolves st (fold_left step calls st).
Proof.
  revert st. induction calls as [|call calls IH]; intros st; cbn [fold_left].
  - constructor.
  - eapply evolves_trans; [apply step_evolves | apply IH].
Qed.

Lemma evolves_bookings st st' : evolves st st' -> bookings st' = bookings st.
Proof. induction 1 as [|st c st' _ _ _ IH]; [reflexivity | exact IH]. Qed.

Lemma evolves_find st st' class_id c :
  evolves st st' -> find_class st class_id = Some c ->
  find_class st' class_id = Some c.
Proof.
  induction 1 as [|st c0 st' Hnew _ _ IH]; [auto|].
  intros Hfind. apply IH. rewrite find_class_inserted by exact Hnew.
  destruct (FitnessClass.id c0 =? class_id) eqn:Heq; [|exact Hfind].
  apply Z.eqb_eq in Heq. congruence.
Qed.

Lemma evolves_in st st' c :
  evolves st st' -> In c (fitness_classes st) -> In c (fitness_classes st').
Proof.
  induction 1 as [|st c0 st' _ _ _ IH]; [auto|].
  intros Hin. apply IH. cbn [fitness_classes]. apply insert_by_id_in. now right.
Qed.

Lemma evolves_nodup st st' :
  evolves st st' -> NoDup (map FitnessClass.id (fitness_classes st)) ->
  NoDup (map FitnessClass.id (fitness_classes st')).
Proof.
  induction 1 as [|st c st' Hnew _ _ IH]; [auto|].
  intros Hnd. apply IH. cbn [fitness_classes].
  apply insert_by_id_nodup; [|exact Hnd].
  rewrite in_map_iff. intros (x & Hid & Hin).
  exact (find_class_none _ _ Hnew x Hin Hid).
Qed.

(** A new row is given its place by its id. *)
Lemma insert_by_id_ascending c l :
  find (fun x => FitnessClass.id x =? FitnessClass.id c) l = None ->
  ascending_ids l = true -> ascending_ids (insert_by_id c l) = true.
Proof.
  induction l as [|a l IH]; [reflexivity|].
  cbn [insert_by_id find]. intros Hnew Hasc.
  destruct (FitnessClass.id a =? FitnessClass.id c) eqn:Hac; [discriminate|].
  apply Z.eqb_neq in Hac.
  destruct (FitnessClass.id c <? FitnessClass.id a) eqn:Hlt.
  - change (ascending_ids (c :: a :: l))
      with ((FitnessClass.id c <? FitnessClass.id a) && ascending_ids (a :: l)).
    rewrite Hlt, Hasc. reflexivity.
  - apply Z.ltb_ge in Hlt.
    assert (Hrest : ascending_ids l = true).
    { destruct l as [|b l]; [reflexivity|].
      change (ascending_ids (a :: b :: l))
        with ((FitnessClass.id a <? FitnessClass.id b) && ascending_ids (b :: l))
        in Hasc.
      now apply andb_prop in Hasc as [_ Hasc]. }
    specialize (IH Hnew Hrest).
    destruct l as [|b l].
    + cbn [insert_by_id ascending_ids].
      replace (FitnessClass.id a <? FitnessClass.id c) with true
        by (symmetry; apply Z.ltb_lt; lia).
      reflexivity.
    + change (ascending_ids (a :: b :: l))
        with ((FitnessClass.id a <? FitnessClass.id b) && ascending_ids (b :: l))
        in Hasc.
      apply andb_prop in Hasc as [Hab _].
      cbn [insert_by_id] in IH |- *.
      destruct (FitnessClass.id c <? FitnessClass.id b).
      * change (ascending_ids (a :: c :: b :: l))
          with ((FitnessClass.id a <? FitnessClass.id c)
                && ascending_ids (c :: b :: l)).
        rewrite IH.
        replace (FitnessClass.id a <? FitnessClass.id c) with true
          by (symmetry; apply Z.ltb_lt; lia).
        reflexivity.
      * match goal with
        | |- ascending_ids (a :: b :: ?r) = true =>
            change (ascending_ids (a :: b :: r))
              with ((FitnessClass.id a <? FitnessClass.id b)
                    && ascending_ids (b :: r))
        end.
        rewrite Hab, IH. reflexivity.
Qed.

Lemma evolves_ascending st st' :
  evolves st st' -> ascending_ids (fitness_classes st) = true ->
  ascending_ids (fitness_classes st') = true.
Proof.
  induction 1 as [|st c st' Hnew _ _ IH]; [auto|].
  intros Hasc. apply IH. cbn [fitness_classes].
  apply insert_by_id_ascending; assumption.
Qed.

(** ** The capacity of a class *)

Lemma count_bookings_unreferenced st class_id :
  (forall b, In b (bookings st) -> Booking.class_id b <> class_id) ->
  count_bookings st class_id = 0.
Proof.
  unfold count_bookings. intros Hnone.
  induction (bookings st) as [|b bs IH]; [reflexivity|].
  cbn [filter].
  destruct (Booking.class_id b =? class_id) eqn:Heq.
  - apply Z.eqb_eq in Heq. exfalso. exact (Hnone b (or_introl eq_refl) Heq).
  - apply IH. intros b' Hin. apply Hnone. now right.
Qed.

Lemma invariant_empty : invariant empty_store.
Proof.
  split; [split|]; cbn.
  - constructor.
  - intros b [].
  - intros c [].
Qed.

(** A new row with all its slots free, and their number not negative,
    keeps the invariant. *)
Lemma invariant_inserted st c :
  invariant st ->
  find_class st (FitnessClass.id c) = None ->
  FitnessClass.available_slots c = FitnessClass.total_slots c ->
  0 <= FitnessClass.total_slots c ->
  invariant (mk_store (insert_by_id c (fitness_classes st)) (bookings st)).
Proof.
  intros [[Hnd Hrefs] Hslots] Hnew Hfree Hcap.
  split; [split|].
  - cbn [fitness_classes]. apply insert_by_id_nodup; [|exact Hnd].
    rewrite in_map_iff. intros (x & Hid & Hin).
    exact (find_class_none _ _ Hnew x Hin Hid).
  - cbn [bookings]. intros b Hin. rewrite find_class_inserted by exact Hnew.
    destruct (FitnessClass.id c =? Booking.class_id b); [discriminate|].
    now apply Hrefs.
  - cbn [fitness_classes]. intros x Hin.
    apply insert_by_id_in in Hin as [-> | Hin].
    + unfold slots_ok.
      replace (count_bookings _ (FitnessClass.id c)) with 0.
      * lia.
      * symmetry. apply count_bookings_unreferenced. cbn [bookings].
        intros b Hin Heq. apply (Hrefs b Hin). now rewrite Heq.
    + exact (Hslots x Hin).
Qed.

Lemma invariant_add_class class_id name year month day hour minute instructor
    total_slots duration_minutes env st :
  invariant st -> 0 <= total_slots ->
  invariant (step st (Call_add_class class_id name year month day hour minute
                        instructor total_slots duration_minutes env)).
Proof.
  intros Hinv Hcap. rewrite add_class_step.
  destruct (add_class_cases class_id name year month day hour minute instructor
              total_slots duration_minutes env st)
    as [-> | (c & -> & Hnew & _ & Htotal & Hfree)]; cbn [snd]; [exact Hinv|].
  apply invariant_inserted; [exact Hinv | exact Hnew | congruence | lia].
Qed.

Lemma invariant_sample_calls env st :
  invariant st -> invariant (fold_left step (sample_calls env) st).
Proof.
  intros Hinv. unfold sample_calls, sample_classes. cbn [map fold_left].
  repeat (apply invariant_add_class; [| lia]). exact Hinv.
Qed.

Lemma invariant_step st call :
  invariant st -> capacity_ok call = true -> invariant (step st call).
Proof.
  intros Hinv Hcap. destruct call.
  - cbn [capacity_ok] in Hcap. apply Z.leb_le in Hcap.
    now apply invariant_add_class.
  - destruct (startup_step env st) as [-> | [_ ->]];
      [exact Hinv | now apply invariant_sample_calls].
  - cbn [step]. now rewrite get_classes_reads.
  - cbn [step]. now rewrite book_class_reads.
  - cbn [step]. now rewrite get_bookings_reads.
Qed.

(** ** The block [reserve] of [book_class] *)

Lemma has_booking_id_classes cls st id :
  has_booking_id (mk_store cls (bookings st)) id = has_booking_id st id.
Proof. reflexivity. Qed.

(** The lines 208 to 237, run on their own: either nothing reaches the
    store, or the slot and the booking reach it together. *)
Lemma reserve_outcome env st class_id target_class client_name client_email :
  let m := try_except
             (reserve env class_id target_class client_name client_email)
             (fun _ => booking_failed) in
  (m (mk_session st [])
   = (inl (error "An error occurred while processing your booking", 500),
      mk_session st []))
  \/ exists b,
       Booking.id b = uuid4 env
       /\ Booking.class_id b = class_id
       /\ bind_text (real_text env) client_name = inl (Booking.client_name b)
       /\ bind_text (real_text env) client_email = inl (Booking.client_email b)
       /\ has_booking_id st (uuid4 env) = false
       /\ snd (m (mk_session st []))
          = mk_session
              (reserved st class_id (FitnessClass.available_slots target_class - 1) b)
              []
       /\ (status_of (reply_of (fst (m (mk_session st [])))) = 201
           \/ fst (m (mk_session st []))
              = inl (error "An error occurred while processing your booking", 500)).
Proof.
  cbv zeta.
  unfold reserve, try_except, bind, session_add, commit, booking_failed, rollback, ret.
  cbn [db work app].
  destruct (commit_fails (faults env)); [now left|].
  cbn [flush apply].
  destruct (int64 (FitnessClass.available_slots target_class - 1));
    cbn [negb]; [|now left].
  unfold bind_integer.
  destruct (int64 class_id); [|now left].
  destruct (bind_text (real_text env) client_name) as [n|x] eqn:Hn; [|now left].
  destruct (bind_text (real_text env) client_email) as [e|x] eqn:He; [|now left].
  rewrite has_booking_id_classes.
  destruct (has_booking_id st (uuid4 env)) eqn:Hid; [now left|].
  right. exists (Booking.mk (uuid4 env) class_id n e (utcnow env)).
  cbn [Booking.id Booking.class_id Booking.client_name Booking.client_email].
  repeat (split; [reflexivity|]).
  unfold refresh. cbn [db].
  destruct (refresh_fails (faults env)); [split; [reflexivity | now right]|].
  match goal with
  | |- context [find_class ?s class_id] => destruct (find_class s class_id)
  end; (split; [reflexivity|]); [now left | now right].
Qed.

(** ** The lookup of bookings *)

Lemma like_plain pattern :
  wildcard_free pattern = true ->
  forall text, like pattern text = (pattern =? text)%string.
Proof.
  induction pattern as [|c pattern IH]; intros Hfree text.
  - destruct text; reflexivity.
  - cbn [wildcard_free] in Hfree.
    apply andb_prop in Hfree. destruct Hfree as [Hfree Hrest].
    apply andb_prop in Hfree. destruct Hfree as [Hpct Hund].
    apply negb_true_iff in Hpct, Hund.
    cbn [like]. rewrite Hpct.
    destruct text as [|d text]; [reflexivity|].
    rewrite Hund, (IH Hrest). reflexivity.
Qed.

Lemma lower_ascii_wildcard c :
  (lower_ascii c =? "%")%char = (c =? "%")%char
  /\ (lower_ascii c =? "_")%char = (c =? "_")%char.
Proof.
  destruct c as [[] [] [] [] [] [] [] []]; split; reflexivity.
Qed.

Lemma lower_wildcard_free s : wildcard_free (lower s) = wildcard_free s.
Proof.
  induction s as [|c s IH]; [reflexivity|].
  cbn [lower wildcard_free].
  destruct (lower_ascii_wildcard c) as [-> ->]. now rewrite IH.
Qed.

Lemma c_string_nul_free s : nul_free s = true -> c_string s = s.
Proof.
  induction s as [|c s IH]; [reflexivity|].
  cbn [nul_free c_string]. intros H. apply andb_prop in H as [Hc Hs].
  apply negb_true_iff in Hc. rewrite Hc, (IH Hs). reflexivity.
Qed.

Lemma lower_ascii_nul c : (lower_ascii c =? "000")%char = (c =? "000")%char.
Proof. destruct c as [[] [] [] [] [] [] [] []]; reflexivity. Qed.

Lemma lower_nul_free s : nul_free (lower s) = nul_free s.
Proof.
  induction s as [|c s IH]; [reflexivity|].
  cbn [lower nul_free]. now rewrite lower_ascii_nul, IH.
Qed.

(** For an address without wildcards, and without NUL on either side, the
    match is the equality up to the case of the letters. *)
Lemma ilike_plain email column :
  wildcard_free email = true -> nul_free email = true ->
  nul_free column = true ->
  ilike column email = same_email column email.
Proof.
  intros Hfree Hnul Hcol. unfold ilike, same_email.
  rewrite !c_string_nul_free by now rewrite lower_nul_free.
  rewrite like_plain by now rewrite lower_wildcard_free.
  apply String.eqb_sym.
Qed.

Lemma map_result_total {A B} (f : A -> result B) (l : list A) :
  (forall a, In a l -> exists b, f a = inl b) ->
  exists bs, map_result f l = inl bs.
Proof.
  induction l as [|a l IH]; intros Hf.
  - exists []. reflexivity.
  - destruct (Hf a (or_introl eq_refl)) as [b Hb].
    destruct IH as [bs Hbs]; [intros a' Hin; apply Hf; now right|].
    exists (b :: bs). cbn [map_result]. now rewrite Hb, Hbs.
Qed.

Lemma map_result_inr {A B} (f : A -> result B) (l : list A) x :
  map_result f l = inr x -> exists a, In a l /\ f a = inr x.
Proof.
  induction l as [|a l IH]; cbn [map_result]; [discriminate|].
  destruct (f a) as [b|y] eqn:Hfa.
  - destruct (map_result f l) as [bs|y]; [discriminate|].
    intros H. injection H as <-. destruct IH as (a' & Hin & Ha'); [reflexivity|].
    exists a'. split; [now right | exact Ha'].
  - intros H. injection H as <-. exists a. split; [now left | exact Hfa].
Qed.

(** ** The handlers against their specification *)

(** C1.  At the request of [test_book_class_duplicate], for class 1 and
    [test@example.com], who holds a booking of that class: [book_class]
    answers 500 with its generic error where the test expects 409 and
    'already booked', and stores nothing.  No reply of [book_class] depends
    on the rows of [bookings]: the handler never looks for an earlier
    booking. *)
Theorem duplicate_booking_answered_500 :
  map Booking.id (bookings_of Fixture.store 1 "test@example.com")
  = ["test-booking-123"]
  /\ Fixture.book_duplicate
     = (Replied (error "An error occurred while processing your booking") 500,
        Fixture.store)
  /\ forall req env classes rows rows',
       fst (serve book_class req env (mk_store classes rows))
       = fst (serve book_class req env (mk_store classes rows')).
Proof.
  split; [vm_compute; reflexivity|].
  split; [vm_compute; reflexivity|].
  intros req env classes rows rows'. rewrite !serve_session. cbn [fst].
  unfold book_class.
  destruct (truthy (get_json req)); cbn [negb]; [| reflexivity].
  destruct (get_json req) as [| | | | | | | |d]; try reflexivity.
  destruct (all _); cbn [negb]; [| reflexivity].
  destruct (int (dict_get d "class_id")) as [class_id|x];
    [| destruct x; reflexivity].
  unfold try_except, bind, query_get.
  destruct (query_fails (faults env)); [reflexivity|].
  destruct (int64 class_id); [| reflexivity].
  cbn [db negb]. unfold find_class. cbn [fitness_classes].
  destruct (find _ classes); reflexivity.
Qed.

(** C2.  At the request of [test_invalid_email], with the address
    ['invalid-email'] for class 1: [book_class] answers 500 with its generic
    error where the test expects 400 and 'invalid email'.  The same address
    for the id 999 is answered 404 'Class not found': the address is never
    checked, and the request is refused only by the lookup of the class,
    inside the [try]. *)
Theorem invalid_email_not_validated :
  Fixture.book_invalid_email
  = (Replied (error "An error occurred while processing your booking") 500,
     Fixture.store)
  /\ Fixture.book_invalid_email_unknown_class
     = (Replied (error "Class not found") 404, Fixture.store).
Proof. split; vm_compute; reflexivity. Qed.

(** C3.  [get_classes] reads no [include_past] and sorts nothing.  At the
    request of [test_get_classes_include_past] the class that has started is
    left out; and a class entered last that starts first is listed last, so
    that the list is not ascending by start time. *)
Theorem listing_ignores_include_past_and_order :
  fst Runs.include_past
  = Replied (JArr (map class_dict (tl (fitness_classes Scenario.seeded)))) 200
  /\ map FitnessClass.id (fitness_classes Scenario.seeded) = [1; 2; 3; 4]
  /\ fst Runs.listing
     = Replied (JArr (map class_dict (fitness_classes Runs.early_class))) 200
  /\ map FitnessClass.id (fitness_classes Runs.early_class) = [1; 2; 3; 4; 5]
  /\ ascending (map (fun c => instant (FitnessClass.datetime_utc c))
                    (fitness_classes Runs.early_class)) = false.
Proof. repeat split; vm_compute; reflexivity. Qed.

(** C4.  The replies carry no [status] field, and the errors an [error]
    field instead of a [message]: at the request of [test_invalid_email]
    without [email] the body is [{'error': ...}], and no reply for a booking
    or a listing has the envelope. *)
Theorem replies_have_no_envelope :
  fst Runs.no_email
  = Replied (JObj [("error", JStr "Email query parameter is required")]) 400
  /\ has_envelope (fst Runs.no_email) = false
  /\ has_envelope (fst Runs.past_class) = false
  /\ has_envelope (fst Runs.first_booking) = false
  /\ has_envelope (fst Runs.include_past) = false.
Proof. repeat split; vm_compute; reflexivity. Qed.

(** C5.  At the request of [test_book_class_past], for class 3, which
    started a day ago and has free slots: [book_class] answers 500 with its
    generic error, where the specification and the test expect the conflict 409
    'already started', and stores nothing. *)
Theorem started_class_answered_500 :
  (exists c, find_class Fixture.store 3 = Some c
             /\ instant (FitnessClass.datetime_utc c) <= now Fixture.env
             /\ 0 < FitnessClass.available_slots c)
  /\ Fixture.book_past
     = (Replied (error "An error occurred while processing your booking") 500,
        Fixture.store).
Proof.
  split; [|vm_compute; reflexivity].
  eexists. split; [vm_compute; reflexivity|]. split; vm_compute; congruence.
Qed.

(** C6, for capacities that are not negative.  From a store where every
    class has [0 <= available_slots <= total_slots] and [available_slots]
    equal to [total_slots] minus the number of its bookings, and where the
    keys hold, any sequence of calls of [add_class] with [total_slots >= 0],
    of start-ups and of requests leads to such a store. *)
Theorem capacity_invariant (calls : list Call) (st : Store) :
  invariant st ->
  forallb capacity_ok calls = true ->
  invariant (fold_left step calls st).
Proof.
  revert st. induction calls as [|call calls IH]; intros st Hinv Hcap;
    cbn [fold_left]; [exact Hinv|].
  cbn [forallb] in Hcap. apply andb_prop in Hcap as [Hcall Hrest].
  apply IH; [|exact Hrest]. now apply invariant_step.
Qed.

(** C7.  A request for a booking never leaves a part of a booking.  The
    handler leaves the store and the session as they were, whatever the
    request, the clock and the faults of the store.  And the block that
    books (lines 208 to 237), run on its own for any class and client,
    leaves no pending work and either the store as it was, or the store
    with both the slot taken and the one booking added. *)
Theorem booking_is_atomic :
  (forall req env st,
      snd (book_class req env (mk_session st [])) = mk_session st [])
  /\ (forall env st class_id target_class client_name client_email,
        let ss :=
          snd (try_except
                 (reserve env class_id target_class client_name client_email)
                 (fun _ => booking_failed) (mk_session st [])) in
        work ss = []
        /\ (db ss = st
            \/ exists b,
                 Booking.id b = uuid4 env
                 /\ Booking.class_id b = class_id
                 /\ db ss
                    = reserved st class_id
                        (FitnessClass.available_slots target_class - 1) b)).
Proof.
  split.
  - intros req env st.
    destruct (book_class_session req env st) as (r & -> & _). reflexivity.
  - intros env st class_id target_class client_name client_email.
    destruct (reserve_outcome env st class_id target_class client_name client_email)
      as [H | (b & Hid & Hclass & _ & _ & _ & H & _)]; cbv zeta; rewrite H.
    + split; [reflexivity | now left].
    + split; [reflexivity|]. right. exists b. auto.
Qed.

(** C8.  The requests of [test_book_class_past], [test_book_class_duplicate]
    and [test_book_class_full], and a request that is late, a duplicate and
    without a slot at once, are all answered alike, 500 with the generic
    error: the reply names none of the conflicts, so that no precedence
    among them can be observed. *)
Theorem conflicts_answered_alike :
  (exists c, find_class Fixture.crowded 3 = Some c
             /\ instant (FitnessClass.datetime_utc c) <= now Fixture.env
             /\ FitnessClass.available_slots c = 0)
  /\ bookings_of Fixture.crowded 3 "test@example.com" <> []
  /\ fst Fixture.book_past = fst Fixture.book_crowded
  /\ fst Fixture.book_duplicate = fst Fixture.book_crowded
  /\ fst Fixture.book_full = fst Fixture.book_crowded
  /\ Fixture.book_crowded
     = (Replied (error "An error occurred while processing your booking") 500,
        Fixture.crowded).
Proof.
  split.
  { eexists. split; [vm_compute; reflexivity|].
    split; [vm_compute; congruence | reflexivity]. }
  split; [vm_compute; discriminate|].
  repeat split; vm_compute; reflexivity.
Qed.

(** C9, as the handler has it.  [get_bookings] answers 400 exactly when the
    [email] parameter is absent or empty.  Otherwise, for an address of at
    most 50000 bytes without [%], [_] and NUL, when the store answers, no
    stored address holds a NUL and every booking with that address has its
    class, it answers 200 with the rows, in table order, of exactly the
    bookings whose [client_email] is the address up to the case of the
    letters A to Z; the list is empty when there is none. *)
Theorem bookings_lookup (req : Request) (env : Env) (st : Store) :
  (status_of (fst (serve get_bookings req env st)) = 400
   <-> args_get (args req) "email" = None
       \/ args_get (args req) "email" = Some "")
  /\ forall email,
       args_get (args req) "email" = Some email ->
       email <> "" ->
       wildcard_free email = true ->
       nul_free email = true ->
       utf8_length email <= like_pattern_limit ->
       query_fails (faults env) = false ->
       (forall b, In b (bookings st) -> nul_free (Booking.client_email b) = true) ->
       (forall b, In b (bookings st) ->
                  same_email (Booking.client_email b) email = true ->
                  find_class st (Booking.class_id b) <> None) ->
       let matching :=
         filter (fun b => same_email (Booking.client_email b) email)
                (bookings st) in
       exists result,
         serve get_bookings req env st = (Replied (JArr result) 200, st)
         /\ map_result (booking_dict st) matching = inl result
         /\ (matching = [] -> result = []).
Proof.
  split.
  - rewrite serve_session, get_bookings_session. cbn [fst reply_of].
    destruct (args_get (args req) "email") as [email|];
      [| split; [now left | reflexivity]].
    destruct (email =? "")%string eqn:Hempty.
    + apply String.eqb_eq in Hempty. subst email.
      split; [now right | reflexivity].
    + apply String.eqb_neq in Hempty.
      split.
      * destruct (_ || _); [discriminate|].
        destruct (map_result _ _); discriminate.
      * intros [H|H]; [discriminate | congruence].
  - intros email Hemail Hne Hfree Hnul Hlen Hq Hstored Href matching.
    assert (Hsame : filter (fun b => ilike (Booking.client_email b) email)
                           (bookings st) = matching).
    { apply filter_ext_in. intros b Hin. apply ilike_plain; auto. }
    destruct (map_result_total (booking_dict st) matching) as [result Hresult].
    { intros b Hin. apply filter_In in Hin. destruct Hin as [Hin Hb].
      unfold booking_dict, fitness_class.
      destruct (find_class st (Booking.class_id b)) eqn:Hfind; [eauto|].
      exfalso. exact (Href b Hin Hb Hfind). }
    exists result. repeat split.
    + rewrite serve_session, get_bookings_session, Hemail.
      apply String.eqb_neq in Hne. rewrite Hne, Hq.
      unfold like_fails.
      replace (like_pattern_limit <? utf8_length email) with false
        by (symmetry; apply Z.ltb_ge; exact Hlen).
      cbn [andb orb]. rewrite Hsame, Hresult. reflexivity.
    + exact Hresult.
    + intros Hnone. rewrite Hnone in Hresult. cbn in Hresult. congruence.
Qed.


(** ** More of [add_class] and of the start-up *)

Lemma map_result_in {A B} (f : A -> result B) (l : list A) (bs : list B) a :
  map_result f l = inl bs -> In a l -> exists b, f a = inl b /\ In b bs.
Proof.
  revert bs. induction l as [|x l IH]; intros bs Hmap Hin; [contradiction|].
  cbn [map_result] in Hmap.
  destruct (f x) as [y|] eqn:Hx; [| discriminate].
  destruct (map_result f l) as [ys|] eqn:Hl; [| discriminate].
  injection Hmap as <-. destruct Hin as [->|Hin].
  - exists y. split; [exact Hx | now left].
  - destruct (IH ys eq_refl Hin) as (b & Hb & Hinb).
    exists b. split; [exact Hb | now right].
Qed.

Lemma map_result_ext_in {A B} (f g : A -> result B) l :
  (forall a, In a l -> f a = g a) -> map_result f l = map_result g l.
Proof.
  induction l as [|a l IH]; intros Hfg; [reflexivity|].
  cbn [map_result]. rewrite (Hfg a (or_introl eq_refl)).
  rewrite IH; [reflexivity|]. intros a' Hin. apply Hfg. now right.
Qed.

Lemma all_three class_id client_name client_email :
  all [class_id; client_name; client_email] = true ->
  truthy class_id = true /\ truthy client_name = true /\ truthy client_email = true.
Proof.
  unfold all. cbn [forallb]. intros H.
  apply andb_prop in H. destruct H as [H1 H].
  apply andb_prop in H. destruct H as [H2 H].
  apply andb_prop in H. destruct H as [H3 _]. auto.
Qed.

Lemma naive_is_naive year month day hour minute dt :
  naive year month day hour minute = inl dt -> utcoffset dt = None.
Proof.
  unfold naive. destruct (negb _); [discriminate|].
  destruct (_ && _); [|discriminate]. intros H. injection H as <-. reflexivity.
Qed.

(** X1.  What [add_class] stores when it returns [True]: one row under the
    given id, which was free, in the place that the id gives it in the scan
    of the table; the row has the given name, instructor, duration and
    number of slots, all of them available; its [datetime_ist] reads back
    as the naive datetime of the given year, month, day, hour and minute,
    and, for a start from 1945-10-15 on, its [datetime_utc] is five and a
    half hours earlier.  The bookings are as they were. *)
Theorem add_class_reports_insertion (class_id : Z) (name : string)
    (year month day hour minute : Z) (instructor : string)
    (total_slots duration_minutes : Z) (env : Env) (st : Store) :
  fst (run (add_class class_id name year month day hour minute instructor
              total_slots duration_minutes env) st) = inl true ->
  let st' := snd (run (add_class class_id name year month day hour minute
                         instructor total_slots duration_minutes env) st) in
  exists c,
    fitness_classes st' = insert_by_id c (fitness_classes st)
    /\ bookings st' = bookings st
    /\ find_class st class_id = None
    /\ find_class st' class_id = Some c
    /\ FitnessClass.id c = class_id
    /\ FitnessClass.name c = name
    /\ FitnessClass.instructor c = instructor
    /\ FitnessClass.duration_minutes c = duration_minutes
    /\ FitnessClass.total_slots c = total_slots
    /\ FitnessClass.available_slots c = total_slots
    /\ naive year month day hour minute = inl (FitnessClass.datetime_ist c)
    /\ (ist_since <= FitnessClass.ist_column c ->
        FitnessClass.utc_column c + 330 * us_per_minute = FitnessClass.ist_column c).
Proof.
  cbv zeta. rewrite add_class_eval. cbn [fst snd].
  unfold add_class_decides.
  destruct (naive year month day hour minute) as [naive_dt|x] eqn:Hnaive;
    [| discriminate].
  pose proof (naive_is_naive _ _ _ _ _ _ Hnaive) as Hoff.
  unfold localize, astimezone_utc.
  destruct (_ && _); [| discriminate]. cbn [instant].
  destruct (_ && _); [| discriminate].
  destruct (query_fails (faults env)); [discriminate|].
  destruct (int64 class_id); [| discriminate]. cbn [negb].
  destruct (find_class st class_id) eqn:Hfind; [discriminate|].
  destruct (commit_fails (faults env)); [discriminate|].
  destruct (int64 total_slots && int64 duration_minutes); [| discriminate].
  cbn [negb fst snd]. intros _. eexists.
  split; [reflexivity|]. split; [reflexivity|]. split; [reflexivity|].
  split.
  { rewrite find_class_inserted by exact Hfind.
    cbn [FitnessClass.id]. rewrite Z.eqb_refl. reflexivity. }
  cbn [FitnessClass.id FitnessClass.name FitnessClass.instructor
       FitnessClass.duration_minutes FitnessClass.total_slots
       FitnessClass.available_slots FitnessClass.ist_column
       FitnessClass.utc_column wall utcoffset instant].
  repeat (split; [reflexivity|]).
  split.
  - unfold FitnessClass.datetime_ist. cbn [FitnessClass.ist_column].
    destruct naive_dt as [i o]. cbn [utcoffset instant] in *. subst o.
    f_equal. f_equal. lia.
  - unfold IST, Kolkata. intros Hsince.
    replace (instant naive_dt - _ + _) with (instant naive_dt) in Hsince by lia.
    apply Z.leb_le in Hsince. rewrite Hsince. lia.
Qed.

(** X2.  [add_class] returns [True] exactly when the date is accepted by
    [datetime], by [localize] and by [astimezone], the store and the commit
    do not fail, the id, the number of slots and the duration fit the 64
    bits of an [INTEGER], and no class has the id. *)
Theorem add_class_succeeds_iff (class_id : Z) (name : string)
    (year month day hour minute : Z) (instructor : string)
    (total_slots duration_minutes : Z) (env : Env) (st : Store) :
  fst (run (add_class class_id name year month day hour minute instructor
              total_slots duration_minutes env) st) = inl true
  <-> (exists naive_dt ist_dt utc_dt,
          naive year month day hour minute = inl naive_dt
          /\ localize (IST env) naive_dt = inl ist_dt
          /\ astimezone_utc ist_dt = inl utc_dt)
      /\ query_fails (faults env) = false
      /\ commit_fails (faults env) = false
      /\ int64 class_id = true
      /\ int64 total_slots = true
      /\ int64 duration_minutes = true
      /\ find_class st class_id = None.
Proof.
  rewrite add_class_eval. cbn [fst]. unfold add_class_decides. split.
  - destruct (naive year month day hour minute) as [naive_dt|x]; [| discriminate].
    destruct (localize (IST env) naive_dt) as [ist_dt|x] eqn:Hist; [| discriminate].
    destruct (astimezone_utc ist_dt) as [utc_dt|x] eqn:Hutc; [| discriminate].
    destruct (query_fails (faults env)); [discriminate|].
    destruct (int64 class_id); [| discriminate]. cbn [negb].
    destruct (find_class st class_id); [discriminate|].
    destruct (commit_fails (faults env)); [discriminate|].
    destruct (int64 total_slots); [| discriminate].
    destruct (int64 duration_minutes); [| discriminate].
    intros _. split; [exists naive_dt, ist_dt, utc_dt; auto|].
    repeat split; reflexivity.
  - intros ((naive_dt & ist_dt & utc_dt & -> & -> & ->) & -> & -> & -> & -> & -> & ->).
    reflexivity.
Qed.

(** X3.  Once [add_class] has returned [True] for an id, every later
    [add_class] with that id, whatever its other arguments and whatever the
    state of the store's connection, returns [False] and changes nothing. *)
Theorem add_class_same_id_refused (class_id : Z) (name name' : string)
    (year month day hour minute year' month' day' hour' minute' : Z)
    (instructor instructor' : string)
    (total_slots duration_minutes total_slots' duration_minutes' : Z)
    (env env' : Env) (st : Store) :
  fst (run (add_class class_id name year month day hour minute instructor
              total_slots duration_minutes env) st) = inl true ->
  let st1 := snd (run (add_class class_id name year month day hour minute
                         instructor total_slots duration_minutes env) st) in
  run (add_class class_id name' year' month' day' hour' minute' instructor'
         total_slots' duration_minutes' env') st1
  = (inl false, st1).
Proof.
  cbv zeta. rewrite add_class_eval. cbn [fst snd]. intros Hok.
  assert (Hfound : exists c,
             find_class
               (snd (add_class_decides class_id name year month day hour minute
                       instructor total_slots duration_minutes env st))
               class_id = Some c).
  { destruct (add_class_cases class_id name year month day hour minute instructor
                total_slots duration_minutes env st)
      as [H | (c & H & Hnew & Hid & _)]; rewrite H in Hok |- *; cbn [fst snd] in *;
      [discriminate|].
    exists c. rewrite find_class_inserted by exact Hnew.
    rewrite Hid, Z.eqb_refl. reflexivity. }
  destruct Hfound as [c Hfound].
  rewrite add_class_eval. unfold add_class_decides at 1 3. rewrite Hfound.
  destruct (naive year' month' day' hour' minute') as [n|x]; [| reflexivity].
  destruct (localize (IST env') n) as [i|x]; [| reflexivity].
  destruct (astimezone_utc i); [| reflexivity].
  destruct (query_fails (faults env')); [reflexivity|].
  destruct (int64 class_id); reflexivity.
Qed.

Lemma first_sample_enters env st :
  query_fails (faults env) = false ->
  commit_fails (faults env) = false ->
  fitness_classes st = [] ->
  fitness_classes (fold_left step (sample_calls env) st) <> [].
Proof.
  intros Hq Hc Hcls. unfold sample_calls, sample_classes.
  cbn [map fold_left].
  match goal with
  | |- fitness_classes (step (step (step ?first ?c2) ?c3) ?c4) <> [] =>
      assert (Hin : exists c, In c (fitness_classes first))
  end.
  { rewrite add_class_step. unfold add_class_decides.
    rewrite Hq, Hc. unfold find_class. rewrite Hcls. cbn [find].
    change (naive 2025 6 10 7 0)
      with (@inl datetime exn (mk_datetime 1749538800000000 None)).
    cbv iota beta.
    replace (localize (IST env) (mk_datetime 1749538800000000 None))
      with (@inl datetime exn
              (mk_datetime (1749538800000000 - 330 * us_per_minute)
                 (Some (330 * us_per_minute))))
      by reflexivity.
    cbv iota beta.
    change (astimezone_utc _)
      with (@inl datetime exn (mk_datetime 1749519000000000 (Some 0))).
    cbv iota beta. cbn [fst snd fitness_classes insert_by_id].
    eexists. left. reflexivity. }
  destruct Hin as [c Hin].
  match goal with
  | |- fitness_classes (step (step (step ?first ?c2) ?c3) ?c4) <> [] =>
      pose proof (evolves_in first (step (step (step first c2) c3) c4) c
                    (fold_evolves [c2; c3; c4] first) Hin) as Hin'
  end.
  intros Hnil. rewrite Hnil in Hin'. exact Hin'.
Qed.

(** X4.  The start-up seeds an empty table and nothing else.  On a table
    that has a class it changes nothing; it never touches a booking and
    never removes or changes a class that is there; and after a start-up on
    a store that answers, the table is not empty, so that a second start-up
    changes nothing. *)
Theorem startup_seeds_once (env env' : Env) (st : Store) :
  (fitness_classes st <> [] -> snd (run (startup env) st) = st)
  /\ (exists new,
        fitness_classes (snd (run (startup env) st)) = fitness_classes st ++ new)
  /\ bookings (snd (run (startup env) st)) = bookings st
  /\ (query_fails (faults env) = false ->
      commit_fails (faults env) = false ->
      fitness_classes (snd (run (startup env) st)) <> []
      /\ snd (run (startup env') (snd (run (startup env) st)))
         = snd (run (startup env) st)).
Proof.
  assert (Hfull : forall e s, fitness_classes s <> [] ->
                              snd (run (startup e) s) = s).
  { intros e s Hne. rewrite startup_eval.
    destruct (query_fails (faults e)); [reflexivity|].
    destruct (fitness_classes s); [contradiction | reflexivity]. }
  split; [apply Hfull|].
  split.
  { destruct (fitness_classes st) as [|c0 l] eqn:Hcls.
    - eexists. cbn [app]. reflexivity.
    - exists []. rewrite Hfull by (rewrite Hcls; discriminate).
      rewrite Hcls, app_nil_r. reflexivity. }
  split.
  { change (snd (run (startup env) st)) with (step st (Call_startup env)).
    apply evolves_bookings, step_evolves. }
  intros Hq Hc.
  assert (Hne : fitness_classes (snd (run (startup env) st)) <> []).
  { destruct (fitness_classes st) as [|c0 l] eqn:Hcls.
    - rewrite startup_eval, Hq, Hcls. cbn [snd].
      now apply first_sample_enters.
    - rewrite Hfull by (rewrite Hcls; discriminate). rewrite Hcls. discriminate. }
  split; [exact Hne | now apply Hfull].
Qed.

(** ** Histories of calls *)

Lemma evolves_new_rows st st' c :
  evolves st st' -> In c (fitness_classes st') ->
  In c (fitness_classes st)
  \/ (find_class st (FitnessClass.id c) = None
      /\ FitnessClass.available_slots c = FitnessClass.total_slots c).
Proof.
  induction 1 as [|st c0 st' Hnew Hfree _ IH]; [auto|].
  intros Hin. destruct (IH Hin) as [Hold | [Hnone Hc]].
  - cbn [fitness_classes] in Hold.
    apply insert_by_id_in in Hold as [-> | Hold]; auto.
  - right. split; [|exact Hc].
    rewrite find_class_inserted in Hnone by exact Hnew.
    destruct (FitnessClass.id c0 =? FitnessClass.id c); [discriminate | exact Hnone].
Qed.

(** X5.  No sequence of calls changes or removes a row: the bookings stay
    as they are, every class stays as it is, and a class that was not there
    has an id that was free and all its slots available. *)
Theorem store_only_gains_classes (calls : list Call) (st : Store) :
  let st' := fold_left step calls st in
  bookings st' = bookings st
  /\ (forall c, In c (fitness_classes st) -> In c (fitness_classes st'))
  /\ (forall c, In c (fitness_classes st') ->
        In c (fitness_classes st)
        \/ (find_class st (FitnessClass.id c) = None
            /\ FitnessClass.available_slots c = FitnessClass.total_slots c)).
Proof.
  cbv zeta. pose proof (fold_evolves calls st) as Hev.
  split; [now apply evolves_bookings|].
  split; intros c Hin.
  - now apply (evolves_in st).
  - now apply (evolves_new_rows st (fold_left step calls st)).
Qed.

(** X6.  The class that is found under an id stays the same row, with the
    same number of available slots, whatever calls follow: no request takes
    a slot. *)
Theorem class_row_never_changes (calls : list Call) (st : Store)
    (class_id : Z) (c : FitnessClass.t) :
  find_class st class_id = Some c ->
  find_class (fold_left step calls st) class_id = Some c.
Proof. apply evolves_find, fold_evolves. Qed.

(** X8.  From the empty store, whatever the calls: no booking is ever
    stored, the classes are scanned by strictly ascending id, and every
    class has all its slots available. *)
Theorem history_has_no_booking (calls : list Call) :
  bookings (history calls) = []
  /\ ascending_ids (fitness_classes (history calls)) = true
  /\ forall c, In c (fitness_classes (history calls)) ->
               FitnessClass.available_slots c = FitnessClass.total_slots c.
Proof.
  unfold history. pose proof (fold_evolves calls empty_store) as Hev.
  split; [exact (evolves_bookings _ _ Hev)|].
  split; [apply (evolves_ascending _ _ Hev); reflexivity|].
  intros c Hin. destruct (evolves_new_rows _ _ c Hev Hin) as [[] | [_ H]].
  exact H.
Qed.

(** ** The booking, from the request to the reply *)

(** X9.  A request with its three fields that names a class of the table is
    answered 500 'An error occurred while processing your booking' and
    changes nothing, whatever the start of the class, its free slots, the
    client, the clock and the faults of the store: the comparison of the
    stored start, which is naive, with the aware [now] raises. *)
Theorem booking_of_found_class_fails (req : Request) (env : Env) (st : Store)
    (d : list (string * json)) (class_id : Z) (c : FitnessClass.t) :
  get_json req = JObj d ->
  all [dict_get d "class_id"; dict_get d "client_name"; dict_get d "client_email"]
  = true ->
  int (dict_get d "class_id") = inl class_id ->
  find_class st class_id = Some c ->
  serve book_class req env st
  = (Replied (error "An error occurred while processing your booking") 500, st).
Proof.
  intros Hd Hall Hint Hfind.
  apply (found_class_refused req env st d Hd) with (class_id := class_id) (c := c);
    try assumption.
  intros ->. discriminate.
Qed.

(** X10.  No request for a booking is answered 201, and none changes the
    store: when the handler returns, the status is 400, 404 or 500. *)
Theorem booking_never_succeeds (req : Request) (env : Env) (st : Store) :
  snd (serve book_class req env st) = st
  /\ (status_of (fst (serve book_class req env st)) = 400
      \/ status_of (fst (serve book_class req env st)) = 404
      \/ status_of (fst (serve book_class req env st)) = 500).
Proof.
  split; [apply book_class_reads|].
  rewrite serve_session. cbn [fst]. unfold book_class.
  destruct (truthy (get_json req)); cbn [negb]; [| now left].
  destruct (get_json req) as [| | | | | | | |d]; try (right; right; reflexivity).
  destruct (all _); cbn [negb]; [| now left].
  destruct (int (dict_get d "class_id")) as [class_id|x];
    [| destruct x; try (now left); right; right; reflexivity].
  unfold try_except, bind, query_get.
  destruct (query_fails (faults env)); [right; right; reflexivity|].
  destruct (int64 class_id); [| right; right; reflexivity].
  cbn [db negb].
  destruct (find_class st class_id) as [c|];
    [right; right; reflexivity | right; left; reflexivity].
Qed.


(** X13.  A field that is there but empty counts as missing.  When the class
    id, the name or the address of the body is [null], [false], zero, an
    empty string, list or object, the request is answered 400 "Missing
    required fields" and the store is not touched, whatever its state and
    its faults: in particular a class with id 0 cannot be booked with the
    number 0. *)
Theorem empty_field_is_missing (req : Request) (env : Env) (st : Store)
    (d : list (string * json)) (key : string) :
  get_json req = JObj d -> d <> [] ->
  key = "class_id" \/ key = "client_name" \/ key = "client_email" ->
  truthy (dict_get d key) = false ->
  book_class req env (mk_session st [])
  = (inl (JObj [("error", JStr "Missing required fields")], 400),
     mk_session st []).
Proof.
  intros Hd Hne Hkey Hfalsy. unfold book_class. rewrite Hd.
  cbn [truthy]. destruct d as [|kv d]; [contradiction|]. cbn [negb].
  replace (all _) with false; [reflexivity|].
  unfold all. cbn [forallb].
  destruct Hkey as [Hk|[Hk|Hk]]; subst key; rewrite Hfalsy;
    rewrite ?andb_false_r, ?andb_false_l; reflexivity.
Qed.

(** ** Faults and edges of the three handlers *)



(** X15.  [get_bookings] answers 500 "An error occurred while retrieving
    bookings" exactly when an address was given and the query of the store
    fails, or the address has more than 50000 bytes and the table has a
    row, or a booking that matches has no class under its [class_id]; the
    whole lookup fails then, also when other bookings match. *)
Theorem lookup_fails_iff (req : Request) (env : Env) (st : Store) :
  fst (serve get_bookings req env st)
  = Replied (JObj [("error", JStr "An error occurred while retrieving bookings")]) 500
  <-> exists email,
        args_get (args req) "email" = Some email
        /\ email <> ""
        /\ (query_fails (faults env) = true
            \/ (bookings st <> [] /\ like_pattern_limit < utf8_length email)
            \/ exists b,
                 In b (bookings st)
                 /\ ilike (Booking.client_email b) email = true
                 /\ find_class st (Booking.class_id b) = None).
Proof.
  rewrite serve_session, get_bookings_session. cbn [fst reply_of].
  destruct (args_get (args req) "email") as [email|];
    [| split; [discriminate | intros (e & H & _); discriminate]].
  destruct (email =? "")%string eqn:Hempty.
  - apply String.eqb_eq in Hempty. subst email.
    split; [discriminate | intros (e & H & Hne & _)].
    injection H as <-. contradiction.
  - apply String.eqb_neq in Hempty.
    destruct (like_fails email (bookings st)) eqn:Hlike.
    { split; [| reflexivity]. intros _. exists email.
      split; [reflexivity|]. split; [exact Hempty|]. right. left.
      unfold like_fails in Hlike. apply andb_prop in Hlike as [Hlen Hrows].
      apply Z.ltb_lt in Hlen. split; [|exact Hlen].
      destruct (bookings st); [discriminate Hrows | discriminate]. }
    destruct (query_fails (faults env)).
    { split; [| reflexivity]. intros _. exists email. auto. }
    cbn [orb].
    destruct (map_result _ _) as [result|x] eqn:Hmap.
    + split; [discriminate|].
      intros (e & H & _ & [Hq | [[Hrows Hlen] | (b & Hin & Hmatch & Hnone)]]);
        [discriminate | |]; injection H as <-; exfalso.
      * unfold like_fails in Hlike. apply Z.ltb_lt in Hlen. rewrite Hlen in Hlike.
        destruct (bookings st); [contradiction | discriminate].
      * assert (Hfound : In b (filter (fun b0 => ilike (Booking.client_email b0) email)
                                      (bookings st)))
          by (apply filter_In; auto).
        destruct (map_result_in _ _ _ b Hmap Hfound) as (entry & Hentry & _).
        unfold booking_dict, fitness_class in Hentry. rewrite Hnone in Hentry.
        discriminate.
    + split; [| reflexivity]. intros _. exists email.
      split; [reflexivity|]. split; [exact Hempty|]. right. right.
      destruct (map_result_inr _ _ _ Hmap) as (b & Hin & Hb).
      apply filter_In in Hin. destruct Hin as [Hin Hmatch].
      exists b. repeat split; auto.
      unfold booking_dict, fitness_class in Hb.
      destruct (find_class st (Booking.class_id b)); [discriminate | reflexivity].
Qed.

(** X18.  On a store where every booking has its class, the reply to a
    lookup of bookings is the same before and after any sequence of calls:
    no call adds a booking, and none changes the class of one. *)
Theorem lookup_unchanged_by_calls (calls : list Call) (req : Request)
    (env : Env) (st : Store) :
  (forall b, In b (bookings st) -> find_class st (Booking.class_id b) <> None) ->
  fst (serve get_bookings req env (fold_left step calls st))
  = fst (serve get_bookings req env st).
Proof.
  intros Hrefs. pose proof (fold_evolves calls st) as Hev.
  set (st' := fold_left step calls st) in *.
  rewrite !serve_session, !get_bookings_session. cbn [fst].
  rewrite (evolves_bookings _ _ Hev).
  destruct (args_get (args req) "email") as [email|]; [| reflexivity].
  destruct (email =? "")%string; [reflexivity|].
  destruct (_ || _); [reflexivity|].
  replace (map_result (booking_dict st') _)
    with (map_result (booking_dict st)
            (filter (fun b => ilike (Booking.client_email b) email) (bookings st)));
    [reflexivity|].
  apply map_result_ext_in. intros b Hin. apply filter_In in Hin as [Hin _].
  unfold booking_dict, fitness_class.
  destruct (find_class st (Booking.class_id b)) as [c|] eqn:Hfind;
    [| exfalso; exact (Hrefs b Hin Hfind)].
  now rewrite (evolves_find _ _ _ _ Hev Hfind).
Qed.

(** ** The helpers of the embedding, on examples *)

Example int_of_str_examples :
  int_of_str " 1_000 " = Some 1000 /\ int_of_str "-42" = Some (-42)
  /\ int_of_str "1__0" = None /\ int_of_str "abc" = None
  /\ int_of_str "" = None /\ int_of_str "12_" = None
  /\ int_of_str (String (ascii_of_nat 133) "99") = Some 99
  /\ int_of_str (String (ascii_of_nat 28) "99") = None.
Proof. repeat split; reflexivity. Qed.

Example int_examples :
  int (JFloat (3 # 2)) = inl 1 /\ int (JFloat (-7 # 2)) = inl (-3)
  /\ int (JBool true) = inl 1 /\ int JNull = inr TypeError
  /\ int (JStr "7") = inl 7 /\ int (JStr "seven") = inr ValueError
  /\ int (JInf false) = inr OverflowError /\ int JNaN = inr ValueError.
Proof. repeat split; reflexivity. Qed.

(** The dates of the seeded classes as [GET /classes] shows them: the
    columns keep no zone. *)
Example isoformat_examples :
  map (fun c => (isoformat (FitnessClass.datetime_ist c),
                 isoformat (FitnessClass.datetime_utc c)))
      (fitness_classes Scenario.seeded)
  = [ ("2025-06-10T07:00:00", "2025-06-10T01:30:00");
      ("2025-06-10T18:30:00", "2025-06-10T13:00:00");
      ("2025-06-11T08:00:00", "2025-06-11T02:30:00");
      ("2025-06-12T07:00:00", "2025-06-12T01:30:00") ]
  /\ isoformat (mk_datetime (Scenario.at_ 2025 6 10 1 30) (Some (330 * us_per_minute)))
     = "2025-06-10T07:00:00+05:30".
Proof. split; vm_compute; reflexivity. Qed.

Example like_examples :
  like "a_b%" "axbcd" = true /\ like "a_b" "ab" = false
  /\ like "%" "" = true /\ like "%a" "bba" = true /\ like "%a" "bbab" = false
  /\ ilike "Test@Example.com" "test@example.COM" = true
  /\ ilike "test@example.com" ("test@example.com" ++ String "000" "junk") = true.
Proof. repeat split; reflexivity. Qed.

(** A class with the id 0 entered last is scanned first. *)
Example scan_by_id :
  map FitnessClass.id (fitness_classes Cases.with_class_zero) = [0; 1; 2; 3; 4].
Proof. vm_compute. reflexivity. Qed.

(** An id beyond the 64 bits of an [INTEGER] is refused by [add_class] and
    answered 500 by [book_class]; an infinite [class_id] is not handled. *)
Example integers_beyond_64_bits :
  run (add_class (2 ^ 63) "Pilates" 2025 6 20 9 0 "Meera Nair" 5 50 Cases.env)
      Scenario.seeded
  = (inl false, Scenario.seeded)
  /\ fst (serve book_class (Cases.book (JInt (2 ^ 63))) Cases.env Scenario.seeded)
     = Replied (error "An error occurred while processing your booking") 500
  /\ fst (serve book_class (Cases.book (JInf false)) Cases.env Scenario.seeded)
     = Unhandled OverflowError.
Proof. repeat split; vm_compute; reflexivity. Qed.

(** The [_] of an address stands for any character: the lookup of
    [t_st@example.com] returns the booking of [test@example.com]. *)
Example lookup_wildcard :
  exists entry,
    fst (serve get_bookings (Scenario.get [("email", "t_st@example.com")])
           Fixture.env Fixture.store)
    = Replied (JArr [JObj entry]) 200
    /\ dict_get entry "client_email" = JStr "test@example.com".
Proof. eexists. split; vm_compute; reflexivity. Qed.

(** ** The properties on the example requests *)

(** C6 does not hold as stated: [add_class] with [total_slots = -3] commits
    a class with [-3] available slots. *)
Lemma capacity_invariant_counterexample :
  let c := FitnessClass.mk 9 "Pilates" (Scenario.at_ 2025 6 20 9 0)
             (Scenario.at_ 2025 6 20 3 30) "Meera Nair" (-3) (-3) 50 in
  fitness_classes Demo.negative_capacity = [c]
  /\ FitnessClass.available_slots c < 0
  /\ ~ slots_ok Demo.negative_capacity c.
Proof.
  cbv zeta. split; [vm_compute; reflexivity|].
  split; [reflexivity|].
  intros [[H _] _]. cbn in H. lia.
Qed.

Lemma capacity_invariant_witness :
  forallb capacity_ok Demo.calls = true
  /\ In Demo.yoga (fitness_classes (history Demo.calls))
  /\ slots_ok (history Demo.calls) Demo.yoga.
Proof.
  assert (Hempty : invariant empty_store).
  { split; [split|]; cbn; [constructor | intros b [] | intros c []]. }
  assert (Hinv := capacity_invariant Demo.calls empty_store Hempty eq_refl).
  assert (Hin : In Demo.yoga (fitness_classes (history Demo.calls))).
  { vm_compute. left. reflexivity. }
  split; [reflexivity|].
  split; [exact Hin | exact (proj2 Hinv Demo.yoga Hin)].
Defined.

(** The block that books, on class 1 of the seeded schedule: with a store
    and a commit that work, the slot and the booking are both there; with a
    commit that fails, neither. *)
Lemma booking_is_atomic_witness :
  let block env :=
    snd (try_except
           (reserve env 1 Cases.yoga (JStr "Asha") (JStr "asha@example.com"))
           (fun _ => booking_failed) (mk_session Scenario.seeded [])) in
  let failing :=
    mk_env (now Cases.env) (utcnow Cases.env) (uuid4 Cases.env)
      (mk_faults false true false) (tzdata Cases.env) (real_text Cases.env) in
  (work (block Cases.env) = []
   /\ (db (block Cases.env) = Scenario.seeded
       \/ exists b,
            Booking.id b = "uuid-1" /\ Booking.class_id b = 1
            /\ db (block Cases.env) = reserved Scenario.seeded 1 (15 - 1) b))
  /\ count_bookings (db (block Cases.env)) 1 = 1
  /\ option_map FitnessClass.available_slots (find_class (db (block Cases.env)) 1)
     = Some 14
  /\ block failing = mk_session Scenario.seeded [].
Proof.
  cbv zeta. split.
  - exact (proj2 booking_is_atomic Cases.env Scenario.seeded 1 Cases.yoga
             (JStr "Asha") (JStr "asha@example.com")).
  - repeat split; vm_compute; reflexivity.
Defined.

(** C9 does not hold as stated: [GET /bookings?email=] carries the
    parameter and is answered 400. *)
Lemma bookings_lookup_counterexample :
  args_get (args (Scenario.get [("email", "")])) "email" = Some ""
  /\ fst (serve get_bookings (Scenario.get [("email", "")]) Fixture.env Fixture.store)
     = Replied (error "Email query parameter is required") 400
  /\ ~ lookup_as_specified (Scenario.get [("email", "")]) Fixture.env Fixture.store.
Proof.
  split; [reflexivity|]. split; [vm_compute; reflexivity|].
  intros [result [H _]]. vm_compute in H. discriminate.
Qed.

Lemma bookings_lookup_witness :
  exists result,
    serve get_bookings Cases.lookup Fixture.env Fixture.store
    = (Replied (JArr result) 200, Fixture.store)
    /\ List.length result = 1%nat
    /\ map Booking.client_email
         (filter (fun b => same_email (Booking.client_email b) "TEST@Example.com")
                 (bookings Fixture.store))
       = ["test@example.com"].
Proof.
  destruct (proj2 (bookings_lookup Cases.lookup Fixture.env Fixture.store)
              "TEST@Example.com")
    as (result & Hserve & Hrows & _).
  - reflexivity.
  - discriminate.
  - reflexivity.
  - reflexivity.
  - vm_compute. discriminate.
  - reflexivity.
  - intros b [<-|[]]. reflexivity.
  - intros b [<-|[]] _. vm_compute. discriminate.
  - exists result. split; [exact Hserve|]. split.
    + vm_compute in Hrows. injection Hrows as <-. reflexivity.
    + vm_compute. reflexivity.
Defined.

Lemma add_class_reports_insertion_witness :
  fst (run (add_class 9 "Pilates" 2025 6 20 9 0 "Meera Nair" 5 50 Cases.env)
         Scenario.seeded) = inl true
  /\ exists c,
       find_class
         (snd (run (add_class 9 "Pilates" 2025 6 20 9 0 "Meera Nair" 5 50 Cases.env)
                 Scenario.seeded)) 9 = Some c
       /\ FitnessClass.available_slots c = 5
       /\ isoformat (FitnessClass.datetime_ist c) = "2025-06-20T09:00:00"
       /\ isoformat (FitnessClass.datetime_utc c) = "2025-06-20T03:30:00".
Proof.
  split; [vm_compute; reflexivity|].
  destruct (add_class_reports_insertion 9 "Pilates" 2025 6 20 9 0 "Meera Nair" 5 50
              Cases.env Scenario.seeded)
    as (c & _ & _ & _ & Hfind & _ & _ & _ & _ & _ & Hfree & Hist & Hutc).
  - vm_compute. reflexivity.
  - exists c. split; [exact Hfind|]. split; [exact Hfree|].
    assert (Hcol_ist : FitnessClass.ist_column c = Scenario.at_ 2025 6 20 9 0).
    { vm_compute in Hist. injection Hist as Hist. symmetry. exact Hist. }
    rewrite Hcol_ist in Hutc.
    assert (Hsince : ist_since <= Scenario.at_ 2025 6 20 9 0)
      by (vm_compute; discriminate).
    specialize (Hutc Hsince).
    assert (Hcol_utc : FitnessClass.utc_column c = Scenario.at_ 2025 6 20 3 30).
    { apply (proj1 (Z.add_cancel_r _ _ (330 * us_per_minute))).
      rewrite Hutc. vm_compute. reflexivity. }
    unfold FitnessClass.datetime_ist, FitnessClass.datetime_utc.
    rewrite Hcol_ist, Hcol_utc. split; vm_compute; reflexivity.
Defined.

Lemma add_class_same_id_refused_witness :
  fst (run (add_class 9 "Pilates" 2025 6 20 9 0 "Meera Nair" 5 50 Cases.env)
         Scenario.seeded) = inl true
  /\ (let st1 := snd (run (add_class 9 "Pilates" 2025 6 20 9 0 "Meera Nair" 5 50
                             Cases.env) Scenario.seeded) in
      run (add_class 9 "Barre" 2025 7 1 10 30 "Amit Singh" 12 45 Cases.later) st1
      = (inl false, st1)).
Proof.
  split; [vm_compute; reflexivity|].
  apply (add_class_same_id_refused 9 "Pilates" "Barre" 2025 6 20 9 0 2025 7 1 10 30
           "Meera Nair" "Amit Singh" 5 50 12 45 Cases.env Cases.later Scenario.seeded).
  vm_compute. reflexivity.
Defined.

Lemma class_row_never_changes_witness :
  find_class Scenario.seeded 1 = Some Cases.yoga
  /\ find_class (fold_left step Cases.more_calls Scenario.seeded) 1 = Some Cases.yoga.
Proof.
  split; [vm_compute; reflexivity|].
  apply class_row_never_changes. vm_compute. reflexivity.
Defined.

Lemma booking_of_found_class_fails_witness :
  find_class Scenario.seeded 1 = Some Cases.yoga
  /\ serve book_class (Cases.book (JStr " 1 ")) Cases.env Scenario.seeded
     = (Replied (error "An error occurred while processing your booking") 500,
        Scenario.seeded).
Proof.
  split; [vm_compute; reflexivity|].
  apply (booking_of_found_class_fails (Cases.book (JStr " 1 ")) Cases.env
           Scenario.seeded (Cases.fields (JStr " 1 ")) 1 Cases.yoga).
  - reflexivity.
  - reflexivity.
  - reflexivity.
  - vm_compute. reflexivity.
Defined.


Lemma empty_field_is_missing_witness :
  (exists c, find_class Cases.with_class_zero 0 = Some c)
  /\ truthy (dict_get (Cases.fields (JInt 0)) "class_id") = false
  /\ book_class (Cases.book (JInt 0)) Cases.env (mk_session Cases.with_class_zero [])
     = (inl (JObj [("error", JStr "Missing required fields")], 400),
        mk_session Cases.with_class_zero []).
Proof.
  split; [vm_compute; eauto|].
  split; [reflexivity|].
  apply (empty_field_is_missing (Cases.book (JInt 0)) Cases.env Cases.with_class_zero
           (Cases.fields (JInt 0)) "class_id");
    [reflexivity | discriminate | now left | reflexivity].
Defined.

Lemma lookup_unchanged_by_calls_witness :
  map Booking.class_id (bookings Fixture.store) = [1]
  /\ map FitnessClass.id
       (fitness_classes (fold_left step Cases.more_calls Fixture.store))
     = [0; 1; 2; 3; 9]
  /\ fst (serve get_bookings Cases.lookup Fixture.env
            (fold_left step Cases.more_calls Fixture.store))
     = fst (serve get_bookings Cases.lookup Fixture.env Fixture.store).
Proof.
  split; [reflexivity|]. split; [vm_compute; reflexivity|].
  apply lookup_unchanged_by_calls.
  intros b [<-|[]]. vm_compute. discriminate.
Defined.
